(** * DI / DUIMP export scripts: tables, status colours, timeline figure, CSV

    A shallow embedding of the three scripts of
    [documentos/DUIMP/exported-assets]:

    - [chart_script.py]: builds a table of phases, converts the two date
      columns, looks every status up in [status_colors], adds one trace per
      row to a figure and fixes the layout;
    - [script.py] and [script copy.py]: build tables from column literals and
      write them with [to_csv (index=False, encoding='utf-8')].

    Python values are modelled by [scalar], exceptions by [result], a Python
    [dict] by an association list in insertion order, and a text value by the
    bytes of its UTF-8 encoding (the only characters the CSV dialect treats
    specially are ASCII, so working on bytes and on code points agree). *)

From Stdlib Require Import String Ascii ZArith Bool Arith Lia List.
Import ListNotations.
Open Scope string_scope.

(** ** Values and exceptions *)

(** A calendar date; [pd.to_datetime] of a date-only text is a timestamp at
    midnight of that day. *)
Record Date := mkDate { year : Z; month : Z; day : Z }.

(** What a table cell can hold in these scripts: a [str], the missing value
    [NaN], or a [Timestamp]. *)
Inductive scalar :=
| Str (s : string)
| NaN
| Timestamp (d : Date).

(** A computation that returns or raises; the exception is named by its
    class. *)
Inductive result (A : Type) :=
| Ok (a : A)
| Raise (cls : string).
Arguments Ok {A} a.
Arguments Raise {A} cls.

Definition bind {A B : Type} (m : result A) (k : A -> result B) : result B :=
  match m with
  | Ok a => k a
  | Raise e => Raise e
  end.

Notation "x <- m ;; k" := (bind m (fun x => k))
  (at level 61, m at next level, right associativity).

(** ** Dictionaries *)

(** A [dict] with text keys, in insertion order. *)
Definition dict (V : Type) := list (string * V).

Fixpoint dict_get {V : Type} (d : dict V) (k : string) : option V :=
  match d with
  | [] => None
  | (k', v) :: d' => if (k' =? k)%string then Some v else dict_get d' k
  end.

Definition keys {V : Type} (d : dict V) : list string := map fst d.

(** [d[k] = v]: replaces the value of an existing key in place, appends a new
    key at the end. *)
Fixpoint dict_set {V : Type} (d : dict V) (k : string) (v : V) : dict V :=
  match d with
  | [] => [(k, v)]
  | (k', v') :: d' =>
      if (k' =? k)%string then (k, v) :: d' else (k', v') :: dict_set d' k v
  end.

(** Keeps the first occurrence of every text, in order. *)
Fixpoint unique (l : list string) : list string :=
  match l with
  | [] => []
  | a :: l' => a :: filter (fun b => negb (a =? b)%string) (unique l')
  end.

(** ** Tables (pandas) *)

Definition Series := list scalar.

(** A [DataFrame]: [index] rows, and the columns in order, each with its
    label. *)
Record DataFrame := mkDF { index : nat; cols : dict Series }.

Definition columns (df : DataFrame) : list string := keys (cols df).

(** The value a record gives to a column; a record without that key gives
    [NaN]. *)
Definition record_value (k : string) (r : dict scalar) : scalar :=
  match dict_get r k with
  | Some v => v
  | None => NaN
  end.

(** [pd.DataFrame(records)] on a list of dicts: the columns are the keys in
    the order they are first seen, one row per record. *)
Definition DataFrame_of_records (rs : list (dict scalar)) : DataFrame :=
  mkDF (length rs)
       (map (fun k => (k, map (record_value k) rs))
            (unique (concat (map keys rs)))).

(** [pd.DataFrame(data)] on a dict of lists: the columns are the keys in
    order; lists of different lengths are refused. *)
Definition DataFrame_of_columns (d : dict Series) : result DataFrame :=
  match d with
  | [] => Ok (mkDF 0 [])
  | (_, s) :: d' =>
      if forallb (fun c => (length (snd c) =? length s)%nat) d'
      then Ok (mkDF (length s) d)
      else Raise "ValueError"
  end.

(** [df[c]] *)
Definition getitem (df : DataFrame) (c : string) : result Series :=
  match dict_get (cols df) c with
  | Some s => Ok s
  | None => Raise "KeyError"
  end.

(** [df[c] = values] for a list of values: the length must be that of the
    index, except that a table without rows takes the length of the values
    (its other columns are filled with [NaN]). *)
Definition setitem (df : DataFrame) (c : string) (v : Series)
  : result DataFrame :=
  if (index df =? 0)%nat && negb (length v =? 0)%nat then
    Ok (mkDF (length v)
             (dict_set (map (fun kc => (fst kc, repeat NaN (length v)))
                            (cols df)) c v))
  else if (length v =? index df)%nat then
    Ok (mkDF (index df) (dict_set (cols df) c v))
  else Raise "ValueError".

(** The rows of [n]-row columns, each row labelled by the column names. *)
Fixpoint rows_from (n : nat) (cs : dict Series) : list (dict scalar) :=
  match n with
  | O => []
  | S n' =>
      map (fun kc => (fst kc, hd NaN (snd kc))) cs
      :: rows_from n' (map (fun kc => (fst kc, tl (snd kc))) cs)
  end.

(** [df.iterrows()], without the row number the loop does not use. *)
Definition iterrows (df : DataFrame) : list (dict scalar) :=
  rows_from (index df) (cols df).

(** [row[c]] *)
Definition row_get (row : dict scalar) (c : string) : result scalar :=
  match dict_get row c with
  | Some v => Ok v
  | None => Raise "KeyError"
  end.

(** ** Status colours *)

Definition status_colors : dict scalar :=
  [ ("Implementado", Str "#2E8B57");
    ("Em Andamento", Str "#1FB8CD");
    ("Previsto", Str "#D2BA4C") ].

(** [Series.map(d)] with a dict: every value is replaced by what the dict
    holds for it; a value that is not a key becomes [NaN]. *)
Definition map_value (d : dict scalar) (v : scalar) : scalar :=
  match v with
  | Str s =>
      match dict_get d s with
      | Some c => c
      | None => NaN
      end
  | _ => NaN
  end.

Definition Series_map (d : dict scalar) (s : Series) : Series :=
  map (map_value d) s.

(** ** Dates and text forms of values *)

Definition digit_of (c : ascii) : option Z :=
  let n := nat_of_ascii c in
  if (48 <=? n)%nat && (n <=? 57)%nat then Some (Z.of_nat (n - 48)) else None.

Fixpoint number_of (acc : Z) (l : list ascii) : option Z :=
  match l with
  | [] => Some acc
  | c :: l' =>
      match digit_of c with
      | Some d => number_of (10 * acc + d)%Z l'
      | None => None
      end
  end.

Definition leap_year (y : Z) : bool :=
  ((y mod 4 =? 0) && negb (y mod 100 =? 0) || (y mod 400 =? 0))%Z.

Definition days_in_month (y m : Z) : Z :=
  if (m =? 2)%Z then (if leap_year y then 29 else 28)%Z
  else if ((m =? 4) || (m =? 6) || (m =? 9) || (m =? 11))%Z then 30%Z
  else 31%Z.

Definition valid_date (d : Date) : bool :=
  ((1 <=? month d) && (month d <=? 12) && (1 <=? day d)
   && (day d <=? days_in_month (year d) (month d)))%Z.

(** Reads a date written [YYYY-MM-DD]. *)
Definition parse_iso (s : string) : option Date :=
  match list_ascii_of_string s with
  | [y1; y2; y3; y4; "-"%char; m1; m2; "-"%char; d1; d2] =>
      match number_of 0%Z [y1; y2; y3; y4], number_of 0%Z [m1; m2],
            number_of 0%Z [d1; d2] with
      | Some y, Some m, Some d =>
          let dt := mkDate y m d in
          if valid_date dt then Some dt else None
      | _, _, _ => None
      end
  | _ => None
  end.

Definition digit_char (n : Z) : string :=
  String (ascii_of_nat (48 + Z.to_nat (n mod 10))) "".

Definition pad2 (n : Z) : string := digit_char (n / 10) ++ digit_char n.

Definition pad4 (n : Z) : string := pad2 (n / 100) ++ pad2 n.

Definition date_iso (d : Date) : string :=
  pad4 (year d) ++ "-" ++ pad2 (month d) ++ "-" ++ pad2 (day d).

(** Dates in calendar order. *)
Definition date_compare (a b : Date) : comparison :=
  match (year a ?= year b)%Z with
  | Eq => match (month a ?= month b)%Z with
          | Eq => (day a ?= day b)%Z
          | c => c
          end
  | c => c
  end.

Definition date_leb (a b : Date) : bool :=
  match date_compare a b with Gt => false | _ => true end.

(** [str(v)], which an f-string field [{v}] inserts: a [str] is inserted as
    it is. *)
Definition py_str (v : scalar) : string :=
  match v with
  | Str s => s
  | NaN => "nan"
  | Timestamp d => date_iso d ++ " 00:00:00"
  end.

(** [v == n] for a text [n]: only an equal [str] is equal to it. *)
Definition eq_str (v : scalar) (n : string) : bool :=
  match v with
  | Str s => (s =? n)%string
  | _ => false
  end.

(** [v not in names] *)
Definition not_in (v : scalar) (names : list string) : bool :=
  negb (existsb (eq_str v) names).

(** ** Figures (plotly.graph_objects) *)

Module go.

(** The properties the script gives to a trace. *)
Record Scatter := mkScatter {
  x : list scalar;
  y : list scalar;
  mode : string;
  line_color : scalar;
  line_width : Z;
  marker_color : scalar;
  marker_size : Z;
  name : string;
  legendgroup : string;
  showlegend : bool;
  hovertemplate : string
}.

(** A Python float literal [m * 10^e]. *)
Record number := mkNumber { mantissa : Z; exponent : Z }.

(** The layout properties the script sets; [None] is a property left to
    the library's default. *)
Record Layout := mkLayout {
  title : option string;
  xaxis_title : option string;
  yaxis_title : option string;
  legend_orientation : option string;
  legend_yanchor : option string;
  legend_y : option number;
  legend_xanchor : option string;
  legend_x : option number;
  xaxis_type : option string;
  xaxis_tickformat : option string;
  xaxis_range : option (string * string);
  yaxis_categoryorder : option string;
  yaxis_categoryarray : option (list scalar)
}.

Record Figure := mkFigure { data : list Scatter; layout : Layout }.

Definition empty_layout : Layout :=
  mkLayout None None None None None None None None None None None None None.

(** [go.Figure()] *)
Definition new_Figure : Figure := mkFigure [] empty_layout.

(** [fig.add_trace(t)]: the trace goes after those already there. *)
Definition add_trace (fig : Figure) (t : Scatter) : Figure :=
  mkFigure (data fig ++ [t]) (layout fig).

(** [fig.update_xaxes(range=[lo, hi])] *)
Definition update_xaxes_range (fig : Figure) (lo hi : string) : Figure :=
  let l := layout fig in
  mkFigure (data fig)
    (mkLayout (title l) (xaxis_title l) (yaxis_title l)
       (legend_orientation l) (legend_yanchor l) (legend_y l)
       (legend_xanchor l) (legend_x l) (xaxis_type l) (xaxis_tickformat l)
       (Some (lo, hi)) (yaxis_categoryorder l) (yaxis_categoryarray l)).

(** The names the legend lists: one per trace that asks to be shown, in
    trace order. *)
Definition legend_entries (fig : Figure) : list string :=
  map name (filter showlegend (data fig)).

(** A text property takes a [str]; a number is converted with [str()];
    anything else is refused. *)
Definition StringValidator (v : scalar) : result string :=
  match v with
  | Str s => Ok s
  | NaN => Ok "nan"
  | Timestamp _ => Raise "ValueError"
  end.

End go.

(** ** chart_script.py *)

Section Chart.

(** [pd.to_datetime] on a column: the converted column, or an exception
    when a value cannot be read as a date. *)
Variable to_datetime : Series -> result Series.

(** The plotting library's check of a trace's properties (colours, sizes,
    mode); a trace that fails it is refused with [ValueError]. *)
Variable Scatter_valid : go.Scatter -> bool.

(** [go.Scatter(x=..., y=..., mode=..., line=dict(color=..., width=...),
    marker=dict(color=..., size=...), name=..., legendgroup=...,
    showlegend=..., hovertemplate=...)] *)
Definition Scatter (x y : list scalar) (mode : string)
    (line_color : scalar) (line_width : Z)
    (marker_color : scalar) (marker_size : Z)
    (name legendgroup : scalar) (showlegend : bool)
    (hovertemplate : string) : result go.Scatter :=
  name' <- go.StringValidator name ;;
  legendgroup' <- go.StringValidator legendgroup ;;
  let t := go.mkScatter x y mode line_color line_width marker_color
             marker_size name' legendgroup' showlegend hovertemplate in
  if Scatter_valid t then Ok t else Raise "ValueError".

(** Lines 18 to 31: the table of phases with its dates converted and its
    [color] column added. *)
Definition chart_table (fases : list (dict scalar)) : result DataFrame :=
  let df := DataFrame_of_records fases in
  inicio <- getitem df "inicio" ;;
  inicio <- to_datetime inicio ;;
  df <- setitem df "inicio" inicio ;;
  fim <- getitem df "fim" ;;
  fim <- to_datetime fim ;;
  df <- setitem df "fim" fim ;;
  status <- getitem df "status" ;;
  setitem df "color" (Series_map status_colors status).

(** The hover text of a row (lines 46 to 50). *)
Definition hover_text (modal status periodo : scalar) : string :=
  "<b>%{y}</b><br>" ++
  ("Modal: " ++ py_str modal ++ "<br>") ++
  ("Status: " ++ py_str status ++ "<br>") ++
  ("Período: " ++ py_str periodo ++ "<br>") ++
  "<extra></extra>".

(** The body of the loop (lines 37 to 51): one trace for the row, added to
    the figure. *)
Definition add_row (fig : go.Figure) (row : dict scalar)
  : result go.Figure :=
  inicio <- row_get row "inicio" ;;
  fim <- row_get row "fim" ;;
  nome <- row_get row "nome" ;;
  color <- row_get row "color" ;;
  status <- row_get row "status" ;;
  modal <- row_get row "modal" ;;
  periodo <- row_get row "periodo" ;;
  t <- Scatter [inicio; fim] [nome; nome] "lines+markers"
         color 8 color 10 status status
         (not_in status (map go.name (go.data fig)))
         (hover_text modal status periodo) ;;
  Ok (go.add_trace fig t).

(** [for i, row in df.iterrows(): fig.add_trace(...)] *)
Fixpoint add_rows (fig : go.Figure) (rows : list (dict scalar))
  : result go.Figure :=
  match rows with
  | [] => Ok fig
  | row :: rows' => fig' <- add_row fig row ;; add_rows fig' rows'
  end.

(** [fig.update_layout(...)] of lines 54 to 73. *)
Definition update_layout (fig : go.Figure) (nomes : list scalar)
  : go.Figure :=
  let l := go.layout fig in
  go.mkFigure (go.data fig)
    (go.mkLayout (Some "Timeline DUIMP Out 2024 - Dez 2025")
       (Some "Data") (Some "Fases")
       (Some "h") (Some "bottom") (Some (go.mkNumber 105 (-2)))
       (Some "center") (Some (go.mkNumber 5 (-1)))
       (Some "date") (Some "%b %Y") (go.xaxis_range l)
       (Some "array") (Some nomes)).

(** The script up to the figure it hands to [write_image]. *)
Definition chart_script (fases : list (dict scalar)) : result go.Figure :=
  df <- chart_table fases ;;
  fig <- add_rows go.new_Figure (iterrows df) ;;
  nomes <- getitem df "nome" ;;
  Ok (go.update_xaxes_range (update_layout fig nomes)
        "2024-09-15" "2026-01-15").

End Chart.

(** *** The data of the script *)

Record PhaseRecord := mkPhase {
  nome : string;
  periodo : string;
  modal : string;
  status : string;
  inicio : string;
  fim : string
}.

(** A phase as the dict literal of the script writes it. *)
Definition phase_dict (p : PhaseRecord) : dict scalar :=
  [ ("nome", Str (nome p)); ("periodo", Str (periodo p));
    ("modal", Str (modal p)); ("status", Str (status p));
    ("inicio", Str (inicio p)); ("fim", Str (fim p)) ].

Definition fases : list PhaseRecord :=
  [ mkPhase "Fase 1" "Out-Dez 2024" "Modal Marítimo" "Implementado"
      "2024-10-01" "2024-12-31";
    mkPhase "Fase 2A" "Jan-Mar 2025" "Modal Aéreo" "Implementado"
      "2025-01-01" "2025-03-31";
    mkPhase "Fase 2B" "Abr-Jun 2025" "Modal Aéreo (cont.)" "Em Andamento"
      "2025-04-01" "2025-06-30";
    mkPhase "Fase 3A" "Jul-Set 2025" "Modal Terrestre" "Em Andamento"
      "2025-07-01" "2025-09-30";
    mkPhase "Fase 3B" "Out-Dez 2025" "Zona Franca Manaus" "Previsto"
      "2025-10-01" "2025-12-31" ].

(** *** A library instance to run the script on *)

(** Date conversion of a column of [YYYY-MM-DD] texts; a missing value stays
    missing and a timestamp stays as it is. *)
Fixpoint iso_to_datetime (s : Series) : result Series :=
  match s with
  | [] => Ok []
  | v :: s' =>
      d <- match v with
           | Str t => match parse_iso t with
                      | Some d => Ok (Timestamp d)
                      | None => Raise "ValueError"
                      end
           | _ => Ok v
           end ;;
      ds <- iso_to_datetime s' ;;
      Ok (d :: ds)
  end.

(** A check of traces that accepts those whose line colour is a text. *)
Definition text_line_color (t : go.Scatter) : bool :=
  match go.line_color t with
  | Str _ => true
  | _ => false
  end.

Definition run_chart (ps : list PhaseRecord) : result go.Figure :=
  chart_script iso_to_datetime text_line_color (map phase_dict ps).

(** ** Delimited text (csv) *)

Module csv.

Definition delimiter : ascii := ","%char.
Definition quotechar : ascii := "034"%char.
Definition LF : ascii := "010"%char.
Definition CR : ascii := "013"%char.

(** The writer pandas sets up: [QUOTE_MINIMAL], quotes doubled, no escape
    character, and the line terminator of a POSIX system, a line feed. *)
Definition lineterminator : string := String LF "".

(** A character that makes the writer quote its field: the delimiter, the
    quote character and the characters of the line terminator. *)
Definition special (c : ascii) : bool :=
  (c =? delimiter)%char || (c =? quotechar)%char || (c =? LF)%char.

Fixpoint has_special (s : string) : bool :=
  match s with
  | EmptyString => false
  | String c s' => special c || has_special s'
  end.

(** The characters of a field as written between quotes: a quote is
    doubled. *)
Fixpoint doubled (s : string) : string :=
  match s with
  | EmptyString => EmptyString
  | String c s' =>
      if (c =? quotechar)%char
      then String quotechar (String quotechar (doubled s'))
      else String c (doubled s')
  end.

Definition quoted (s : string) : string :=
  String quotechar (doubled s ++ String quotechar "").

Definition write_field (s : string) : string :=
  if has_special s then quoted s else s.

Fixpoint join_fields (fs : list string) : string :=
  match fs with
  | [] => ""
  | [f] => write_field f
  | f :: fs' => write_field f ++ String delimiter (join_fields fs')
  end.

(** [writer.writerow(fs)]: a record that would be written as nothing, a
    single empty field, is written as a pair of quotes. *)
Definition writerow (fs : list string) : string :=
  let rec := join_fields fs in
  (if (0 <? length fs)%nat && (rec =? "")%string then quoted ""
   else rec) ++ lineterminator.

Fixpoint writerows (rows : list (list string)) : string :=
  match rows with
  | [] => ""
  | r :: rows' => writerow r ++ writerows rows'
  end.

(** *** Reader *)

Inductive state :=
| StartRecord
| StartField
| InField
| InQuotedField
| QuoteInQuotedField
| AfterCR.

Definition after_break (c : ascii) : state :=
  if (c =? CR)%char then AfterCR else StartRecord.

Definition line_break (c : ascii) : bool :=
  (c =? LF)%char || (c =? CR)%char.

(** Modelled from the spec: the standard delimited-text reader a written
    file is re-parsed with; the scripts only write. It is the reader of
    Python's [csv] module with its default dialect (comma, quotes doubled,
    not strict) on a file opened with [newline=''], where a line ends at
    a line feed, at a carriage return or at the two in a row. [field] is
    the field being read and [fields] the fields of the record before it. *)
Fixpoint read (st : state) (field : string) (fields : list string)
    (s : string) : list (list string) :=
  match s with
  | EmptyString =>
      match st with
      | StartRecord | AfterCR => []
      | _ => [(fields ++ [field])%list]
      end
  | String c s' =>
      match st with
      | AfterCR =>
          if (c =? LF)%char then read StartRecord "" [] s'
          else if (c =? CR)%char then [] :: read AfterCR "" [] s'
          else if (c =? quotechar)%char then read InQuotedField "" [] s'
          else if (c =? delimiter)%char then read StartField "" [""] s'
          else read InField (String c "") [] s'
      | StartRecord =>
          if line_break c then [] :: read (after_break c) "" [] s'
          else if (c =? quotechar)%char then read InQuotedField "" [] s'
          else if (c =? delimiter)%char then read StartField "" [""] s'
          else read InField (String c "") [] s'
      | StartField =>
          if line_break c
          then (fields ++ [""])%list :: read (after_break c) "" [] s'
          else if (c =? quotechar)%char
          then read InQuotedField "" fields s'
          else if (c =? delimiter)%char
          then read StartField "" (fields ++ [""])%list s'
          else read InField (String c "") fields s'
      | InField =>
          if line_break c
          then (fields ++ [field])%list :: read (after_break c) "" [] s'
          else if (c =? delimiter)%char
          then read StartField "" (fields ++ [field])%list s'
          else read InField (field ++ String c "") fields s'
      | InQuotedField =>
          if (c =? quotechar)%char
          then read QuoteInQuotedField field fields s'
          else read InQuotedField (field ++ String c "") fields s'
      | QuoteInQuotedField =>
          if (c =? quotechar)%char
          then read InQuotedField (field ++ String c "") fields s'
          else if (c =? delimiter)%char
          then read StartField "" (fields ++ [field])%list s'
          else if line_break c
          then (fields ++ [field])%list :: read (after_break c) "" [] s'
          else read InField (field ++ String c "") fields s'
      end
  end.

(** [list(csv.reader(f))] *)
Definition reader (s : string) : list (list string) :=
  read StartRecord "" [] s.

End csv.

(** The text [to_csv] writes for a cell: a missing value is written as
    nothing ([na_rep=''], the default), a midnight timestamp as its date. *)
Definition csv_text (v : scalar) : string :=
  match v with
  | Str s => s
  | NaN => ""
  | Timestamp d => date_iso d
  end.

(** The cells of a table, row by row, as [to_csv] writes them. *)
Definition csv_rows (df : DataFrame) : list (list string) :=
  map (fun row => map (fun kv => csv_text (snd kv)) row) (iterrows df).

(** [df.to_csv(path, index=False, encoding='utf-8')]: the content of the
    file. The header is the column labels; with [index=False] no row label
    is written. *)
Definition to_csv (df : DataFrame) : string :=
  csv.writerow (columns df) ++ csv.writerows (csv_rows df).

(** ** script.py *)

Module script.

(** The comparison of DI and DUIMP, column by column. *)
Definition data : dict Series :=
  [ ("Aspecto",
      [
        Str "Definição";
        Str "Forma e Processamento";
        Str "Licenciamento";
        Str "Compartilhamento de Dados";
        Str "Catálogo de Produtos";
        Str "Pagamento de Tributos";
        Str "Momento de Registro";
        Str "Documentos Substituídos";
        Str "Sistema Utilizado";
        Str "Integração com Órgãos";
        Str "Flexibilidade de Atualização";
        Str "Transparência";
        Str "Recolhimento de Impostos (OEA Nível 2)" ]);
    ("DI (Declaração de Importação)",
      [
        Str "Documento principal do despacho aduaneiro focado em aspectos fiscais e aduaneiros";
        Str "Processada no SISCOMEX com etapas separadas para diferentes órgãos";
        Str "Licença de Importação (LI) emitida antes do registro da DI em processo separado";
        Str "Menos eficiente, com necessidade de inserir dados em sistemas distintos";
        Str "Não havia sistema centralizado para cadastro de produtos";
        Str "Realizado em etapas específicas do processo";
        Str "Após a chegada da carga no armazém/zona primária";
        Str "N/A - documento original";
        Str "SISCOMEX LI/DI";
        Str "Sequencial, com necessidade de aprovações por etapas";
        Str "Limitada - informações precisam ser inseridas de uma só vez";
        Str "Menor transparência entre órgãos";
        Str "Não aplicável" ]);
    ("DUIMP (Declaração Única de Importação)",
      [
        Str "Documento eletrônico que integra informações aduaneiras, administrativas, comerciais, financeiras, fiscais e logísticas";
        Str "Elaborada no Portal Único Siscomex com integração automática entre órgãos";
        Str "Integra licenciamento via módulo LPCO com análise paralela ao despacho";
        Str "Transparente e eficiente com compartilhamento automático entre órgãos";
        Str "Sistema centralizado - informações cadastradas uma vez e reutilizadas";
        Str "Centraliza recolhimento de tributos facilitando gestão financeira";
        Str "Pode ser registrada antes da chegada da carga";
        Str "Substitui DI, DSI e parte das LIs";
        Str "Portal Único Siscomex";
        Str "Paralelo e integrado com verificações coordenadas";
        Str "Alta - permite atualizações em momentos distintos";
        Str "Total transparência com acesso para todos os intervenientes";
        Str "Coleta mensal unificada para OEAs Nível 2" ]) ].

(** The rollout schedule. *)
Definition cronograma_data : dict Series :=
  [ ("Fase",
      [
        Str "Fase 1";
        Str "Fase 2 - Etapa 1";
        Str "Fase 2 - Etapa 2";
        Str "Fase 3 - Etapa 1";
        Str "Fase 3 - Etapa 2" ]);
    ("Período",
      [
        Str "Outubro - Dezembro 2024";
        Str "Janeiro - Março 2025";
        Str "Abril - Junho 2025";
        Str "Julho - Setembro 2025";
        Str "Outubro - Dezembro 2025" ]);
    ("Modal/Operação",
      [
        Str "Modal Marítimo";
        Str "Modal Aéreo";
        Str "Modal Aéreo (continuação)";
        Str "Modal Terrestre";
        Str "Zona Franca de Manaus (ZFM)" ]);
    ("Características",
      [
        Str "Importações sem licenciamento nos regimes RECOF, REPETRO e Admissão Temporária";
        Str "Operações com controle administrativo, Drawback, recolhimento integral de tributos";
        Str "Expansão para órgãos anuentes - Etapa 2";
        Str "Importações via fronteiras terrestres";
        Str "Operações sob regime da Zona Franca de Manaus" ]);
    ("Status",
      [
        Str "IMPLEMENTADO";
        Str "IMPLEMENTADO";
        Str "EM ANDAMENTO";
        Str "EM ANDAMENTO";
        Str "PREVISTO" ]) ].

(** The two files the script writes, [comparacao_di_duimp.csv] and
    [cronograma_duimp_2025.csv]. *)
Definition main : result (string * string) :=
  df_comparacao <- DataFrame_of_columns data ;;
  let comparacao_csv := to_csv df_comparacao in
  df_cronograma <- DataFrame_of_columns cronograma_data ;;
  let cronograma_csv := to_csv df_cronograma in
  Ok (comparacao_csv, cronograma_csv).

End script.

(** ** script copy.py *)

Module script_copy.

(** The comparison of the data formats of DI and DUIMP. *)
Definition data_xml_comparison : dict Series :=
  [ ("Aspecto",
      [
        Str "Formato de Dados";
        Str "Estrutura de Organização";
        Str "Disponibilidade Oficial";
        Str "Método de Obtenção";
        Str "Campos de Tributos";
        Str "Informações de Itens";
        Str "Integração com NFe";
        Str "Status de Desenvolvimento";
        Str "Forma de Consulta";
        Str "Dados de Cálculos";
        Str "Extrato/Relatório";
        Str "Uso em Sistemas Externos" ]);
    ("DI (Declaração de Importação)",
      [
        Str "XML estruturado disponível oficialmente";
        Str "Organizada por adições (agrupamento de mercadorias)";
        Str "Sim - XML oficial disponível para download";
        Str "Download direto via SISCOMEX após registro";
        Str "Tributos calculados e apresentados por adição";
        Str "Dados básicos por item dentro de cada adição";
        Str "Importação direta via XML para emissão de NFe";
        Str "Sistema maduro e consolidado";
        Str "Interface tradicional SISCOMEX";
        Str "Memória de cálculo básica incluída";
        Str "Extrato em PDF e XML disponíveis";
        Str "Amplamente integrado com ERPs via XML" ]);
    ("DUIMP (Declaração Única de Importação)",
      [
        Str "Formato JSON via API (sem XML oficial)";
        Str "Organizada por itens individuais (sem agrupamento)";
        Str "Não - apenas via API em formato JSON";
        Str "Consulta via API REST do Portal Único";
        Str "Tributos detalhados item por item com memória completa";
        Str "Dados completos e detalhados para cada item";
        Str "Requer desenvolvimento de integração via API";
        Str "Em implementação - sem XML consolidado";
        Str "Portal Único Siscomex via web/API";
        Str "Memória de cálculo completa com alíquotas e fundamentos";
        Str "Extrato PDF simplificado (sem dados tributários completos)";
        Str "Integração limitada - requer adaptação dos sistemas" ]) ].

(** The comparison of the fields of DI and DUIMP. *)
Definition campos_data : dict Series :=
  [ ("Campo/Informação",
      [
        Str "Número de Adições";
        Str "Limite de Itens";
        Str "Estrutura de Dados";
        Str "NCM por Item";
        Str "Peso Líquido/Bruto";
        Str "Valor por Item";
        Str "Fundamentos Legais";
        Str "Atributos do Produto";
        Str "Catálogo de Produtos";
        Str "Operador Estrangeiro";
        Str "Método de Valoração";
        Str "Cobertura Cambial";
        Str "Taxa Siscomex";
        Str "Controle de Versões";
        Str "Histórico de Alterações" ]);
    ("DI",
      [
        Str "Múltiplas adições possíveis";
        Str "Sem limite específico por adição";
        Str "Adição > Itens (hierárquica)";
        Str "Por adição (agrupamento)";
        Str "Por adição (agregado)";
        Str "Valor FOB por adição";
        Str "Por adição";
        Str "Não havia sistema estruturado";
        Str "Não aplicável";
        Str "Dados básicos do exportador";
        Str "Por operação/adição";
        Str "Por operação";
        Str "Calculada por número de adições";
        Str "Retificação via nova versão DI";
        Str "Histórico básico de alterações" ]);
    ("DUIMP",
      [
        Str "Conceito virtual apenas para taxa Siscomex";
        Str "Até 99.999 itens por declaração";
        Str "Item direto (não hierárquica)";
        Str "Por item individual obrigatoriamente";
        Str "Por item individual (rateio automático)";
        Str "Valor detalhado por item individual";
        Str "Por item com detalhamento completo";
        Str "Sistema estruturado via catálogo";
        Str "Obrigatório - item deve estar catalogado";
        Str "Cadastro completo via sistema";
        Str "Por item (mais granular)";
        Str "Por item quando aplicável";
        Str "Calculada por agrupamento virtual de itens";
        Str "Sistema de versões automático";
        Str "Rastreabilidade total de mudanças" ]) ].

(** The two files the script writes, [comparacao_xml_di_duimp.csv] and
    [comparacao_campos_di_duimp.csv]. *)
Definition main : result (string * string) :=
  df_xml_comparison <- DataFrame_of_columns data_xml_comparison ;;
  df_campos <- DataFrame_of_columns campos_data ;;
  let xml_csv := to_csv df_xml_comparison in
  let campos_csv := to_csv df_campos in
  Ok (xml_csv, campos_csv).

End script_copy.

(** ** Checks on texts and cells *)

Fixpoint has_cr (s : string) : bool :=
  match s with
  | EmptyString => false
  | String c s' => (c =? csv.CR)%char || has_cr s'
  end.

(** A text without carriage return. *)
Definition plain_text (s : string) : bool := negb (has_cr s).

(** A cell that holds a text without carriage return. *)
Definition text_cell (v : scalar) : bool :=
  match v with
  | Str s => plain_text s
  | _ => false
  end.

(** The cells of a table, row by row. *)
Definition values (df : DataFrame) : list (list scalar) :=
  map (fun row => map snd row) (iterrows df).

(** The number of occurrences of a character in a text. *)
Fixpoint count_char (c : ascii) (s : string) : nat :=
  match s with
  | EmptyString => 0
  | String a s' => (if (a =? c)%char then 1 else 0) + count_char c s'
  end.

(** The number of line feeds of a text, which for a file ending with one is
    its number of lines. *)
Definition line_feeds (s : string) : nat := count_char csv.LF s.

(** A text without line feed. *)
Definition single_line (s : string) : bool := (line_feeds s =? 0)%nat.

(** ** What the chart script computes, phase by phase *)

(** A phase with its two converted dates. *)
Definition dated : Type := PhaseRecord * scalar * scalar.

Definition phase_of (z : dated) : PhaseRecord := fst (fst z).
Definition start_of (z : dated) : scalar := snd (fst z).
Definition end_of (z : dated) : scalar := snd z.

Definition nome_cell (p : PhaseRecord) : scalar := Str (nome p).
Definition periodo_cell (p : PhaseRecord) : scalar := Str (periodo p).
Definition modal_cell (p : PhaseRecord) : scalar := Str (modal p).
Definition status_cell (p : PhaseRecord) : scalar := Str (status p).
Definition inicio_cell (p : PhaseRecord) : scalar := Str (inicio p).
Definition fim_cell (p : PhaseRecord) : scalar := Str (fim p).

(** The colour the table holds for a phase. *)
Definition color_cell (p : PhaseRecord) : scalar :=
  map_value status_colors (status_cell p).

(** The row of the table for a phase. *)
Definition phase_row (z : dated) : dict scalar :=
  [ ("nome", nome_cell (phase_of z)); ("periodo", periodo_cell (phase_of z));
    ("modal", modal_cell (phase_of z)); ("status", status_cell (phase_of z));
    ("inicio", start_of z); ("fim", end_of z);
    ("color", color_cell (phase_of z)) ].

(** The trace of a phase, [seen] being the names of the traces before it. *)
Definition phase_trace (seen : list string) (z : dated) : go.Scatter :=
  let p := phase_of z in
  go.mkScatter [start_of z; end_of z] [nome_cell p; nome_cell p]
    "lines+markers" (color_cell p) 8 (color_cell p) 10
    (status p) (status p) (not_in (status_cell p) seen)
    (hover_text (modal_cell p) (status_cell p) (periodo_cell p)).

Fixpoint phase_traces (seen : list string) (zs : list dated)
  : list go.Scatter :=
  match zs with
  | [] => []
  | z :: zs' =>
      phase_trace seen z
      :: phase_traces (seen ++ [status (phase_of z)])%list zs'
  end.

(** The layout the script leaves on the figure. *)
Definition chart_layout (nomes : list scalar) : go.Layout :=
  go.mkLayout (Some "Timeline DUIMP Out 2024 - Dez 2025")
    (Some "Data") (Some "Fases")
    (Some "h") (Some "bottom") (Some (go.mkNumber 105 (-2)))
    (Some "center") (Some (go.mkNumber 5 (-1)))
    (Some "date") (Some "%b %Y") (Some ("2024-09-15", "2026-01-15"))
    (Some "array") (Some nomes).

(** The table of phases once the dates are converted and the colours
    added. *)
Definition phases_frame (zs : list dated) : DataFrame :=
  mkDF (length zs)
    [ ("nome", map (fun z => nome_cell (phase_of z)) zs);
      ("periodo", map (fun z => periodo_cell (phase_of z)) zs);
      ("modal", map (fun z => modal_cell (phase_of z)) zs);
      ("status", map (fun z => status_cell (phase_of z)) zs);
      ("inicio", map start_of zs);
      ("fim", map end_of zs);
      ("color", map (fun z => color_cell (phase_of z)) zs) ].

(** [s] occurs in [t] as it is. *)
Definition occurs_in (s t : string) : Prop :=
  exists before after, t = before ++ s ++ after.

(** The statuses the colour table knows. *)
Definition known_statuses : list string := keys status_colors.

(** Start and end of a phase, read as dates. *)
Definition phase_dates (p : PhaseRecord) : option (Date * Date) :=
  match parse_iso (inicio p), parse_iso (fim p) with
  | Some a, Some b => Some (a, b)
  | _, _ => None
  end.

Definition dates_in_order (p : PhaseRecord) : bool :=
  match phase_dates p with
  | Some (a, b) => date_leb a b
  | None => false
  end.

(** The keys of a phase, in the order the literal writes them. *)
Definition phase_keys : list string :=
  ["nome"; "periodo"; "modal"; "status"; "inicio"; "fim"].

(** The status of the phase of a dated row. *)
Definition status_of (z : dated) : string := status (phase_of z).

(** The first two phases of the script. *)
Definition two_phases : list PhaseRecord := firstn 2 fases.

(** A phase that ends before it starts. *)
Definition reversed_phase : PhaseRecord :=
  mkPhase "Fase X" "Mar-Jan 2025" "Modal Aéreo" "Previsto"
    "2025-03-31" "2025-01-01".

(** A phase with a status the colour table does not know. *)
Definition cancelled_phase : PhaseRecord :=
  mkPhase "Fase 4" "Jan-Mar 2026" "Modal Aéreo" "Cancelado"
    "2026-01-01" "2026-03-31".

(** ** Records of one shape, and tables to export *)

Fixpoint keys_eqb (a b : list string) : bool :=
  match a, b with
  | [], [] => true
  | x :: a', y :: b' => (x =? y)%string && keys_eqb a' b'
  | _, _ => false
  end.

(** The keys of a dict are distinct. *)
Definition distinct_keys (ks : list string) : bool := keys_eqb (unique ks) ks.

(** Records of uniform shape: every record has the fields of the first, in
    the same order. *)
Definition uniform_shape (rs : list (dict scalar)) : bool :=
  match rs with
  | [] => true
  | r :: _ =>
      distinct_keys (keys r)
      && forallb (fun r' => keys_eqb (keys r') (keys r)) rs
  end.

(** The fields of the records of a list: those of its first record. *)
Definition fields_of (rs : list (dict scalar)) : list string :=
  match rs with
  | [] => []
  | r :: _ => keys r
  end.

(** A table whose labels and cells hold a comma, quotes, a line feed, an
    empty text and accented characters. *)
Definition tricky_data : dict Series :=
  [ ("Descrição, com vírgula",
      [ Str ("diz " ++ String csv.quotechar "olá" ++ String csv.quotechar "");
        Str ("duas" ++ String csv.LF "linhas");
        Str "" ]);
    ("Órgão",
      [ Str "Receita, Federal"; Str " ação "; Str "é" ]) ].

(** Two tables that differ in one cell, an empty text in one and a missing
    value in the other. *)
Definition empty_text_data : dict Series :=
  [ ("a", [Str ""]); ("b", [Str "x"]) ].

Definition missing_value_data : dict Series :=
  [ ("a", [NaN]); ("b", [Str "x"]) ].

(** A table with a carriage return inside a cell. *)
Definition carriage_return_data : dict Series :=
  [ ("a", [Str ("x" ++ String csv.CR "y")]) ].

(** A table of two columns with a carriage return inside a cell. *)
Definition carriage_return_pair_data : dict Series :=
  [ ("a", [Str ("x" ++ String csv.CR "y")]); ("b", [Str "z"]) ].

(** ** Shapes of tables and of written lines *)

(** Every column has as many values as the table has rows. *)
Definition well_formed (df : DataFrame) : bool :=
  forallb (fun kc => (length (snd kc) =? index df)%nat) (cols df).

(** [k in d] *)
Definition has_key {V : Type} (k : string) (d : dict V) : bool :=
  existsb (String.eqb k) (keys d).

(** The lines of records written without any quoting: the fields joined by
    commas, a line feed after each record. *)
Fixpoint plain_lines (rows : list (list string)) : string :=
  match rows with
  | [] => ""
  | r :: rows' =>
      String.concat "," r ++ csv.lineterminator ++ plain_lines rows'
  end.

(** A field the writer has no reason to quote. *)
Definition bare_field (f : string) : bool := negb (csv.has_special f).

(** Records of phases of which one holds a date that is no date. *)
Definition bad_date_phase : PhaseRecord :=
  mkPhase "Fase 5" "Jan-Mar 2026" "Modal Aéreo" "Previsto"
    "2026-13-01" "2026-03-31".

(** Two records of different shapes. *)
Definition ragged_records : list (dict scalar) :=
  [ [("nome", Str "Fase 1"); ("status", Str "Implementado")];
    [("status", Str "Previsto"); ("modal", Str "Modal Aéreo")] ].

(** * Properties *)

(** ** First occurrences *)

Lemma filter_comm {A : Type} (p q : A -> bool) (l : list A) :
  filter p (filter q l) = filter q (filter p l).
Proof.
  induction l as [|a l IH]; simpl; [reflexivity|].
  destruct (q a) eqn:Hq, (p a) eqn:Hp; simpl; rewrite ?Hq, ?Hp, IH;
    reflexivity.
Qed.

Lemma filter_and {A : Type} (p q : A -> bool) (l : list A) :
  filter p (filter q l) = filter (fun a => q a && p a) l.
Proof.
  induction l as [|a l IH]; simpl; [reflexivity|].
  destruct (q a); simpl; [destruct (p a)|]; rewrite IH; reflexivity.
Qed.

Lemma unique_filter (p : string -> bool) (l : list string) :
  filter p (unique l) = unique (filter p l).
Proof.
  induction l as [|a l IH]; simpl; [reflexivity|].
  destruct (p a) eqn:Hp; simpl.
  - rewrite <- IH, filter_comm. reflexivity.
  - rewrite <- IH, filter_and. apply filter_ext_in.
    intros b _. destruct (String.eqb_spec a b) as [->|_]; simpl;
      [symmetry; exact Hp | reflexivity].
Qed.

Lemma unique_incl (l : list string) : forall a, In a (unique l) -> In a l.
Proof.
  induction l as [|b l IH]; simpl; [tauto|].
  intros a [->|H]; [now left|].
  apply filter_In in H. right. apply IH, H.
Qed.

Lemma In_unique (l : list string) : forall a, In a l -> In a (unique l).
Proof.
  induction l as [|b l IH]; simpl; [tauto|].
  intros a [->|H]; [now left|].
  destruct (String.eqb_spec b a) as [->|Hne]; [now left|].
  right. apply filter_In. split; [apply IH, H|].
  apply negb_true_iff, String.eqb_neq, Hne.
Qed.

Lemma NoDup_unique (l : list string) : NoDup (unique l).
Proof.
  induction l as [|a l IH]; simpl; [constructor|].
  constructor.
  - intros H. apply filter_In in H. destruct H as [_ H].
    rewrite String.eqb_refl in H. discriminate.
  - apply NoDup_filter, IH.
Qed.

Lemma unique_NoDup (l : list string) : NoDup l -> unique l = l.
Proof.
  induction 1 as [|a l Hnin _ IH]; simpl; [reflexivity|].
  rewrite IH. f_equal.
  rewrite (filter_ext_in _ (fun _ => true)).
  - clear. induction l; simpl; congruence.
  - intros b Hb. apply negb_true_iff, String.eqb_neq.
    intros ->. contradiction.
Qed.

(** Keys that were all seen before add nothing. *)
Lemma unique_app_seen (n : nat) :
  forall ks l : list string,
    (length ks <= n)%nat -> incl l ks -> unique (ks ++ l) = unique ks.
Proof.
  induction n as [|n IH]; intros ks l Hlen Hincl.
  - destruct ks; [|simpl in Hlen; lia].
    destruct l as [|a l]; [reflexivity|].
    destruct (Hincl a (or_introl eq_refl)).
  - destruct ks as [|a ks]; simpl.
    + destruct l as [|b l]; [reflexivity|].
      destruct (Hincl b (or_introl eq_refl)).
    + f_equal. rewrite !unique_filter, filter_app.
      apply IH.
      * simpl in Hlen.
        pose proof (filter_length_le (fun b => negb (a =? b)%string) ks).
        lia.
      * intros b Hb. apply filter_In in Hb. destruct Hb as [Hb Hne].
        apply filter_In. split; [|exact Hne].
        destruct (Hincl b Hb) as [->|H]; [|exact H].
        rewrite String.eqb_refl in Hne. discriminate.
Qed.

(** ** Writing and reading delimited text *)

Lemma append_assoc (a b c : string) : (a ++ b) ++ c = a ++ (b ++ c).
Proof. induction a as [|x a IH]; simpl; [reflexivity | now rewrite IH]. Qed.

Lemma append_nil_r (a : string) : a ++ "" = a.
Proof. induction a as [|x a IH]; simpl; [reflexivity | now rewrite IH]. Qed.

Module csv_facts.
Import csv.

(** A character of a field written bare is an ordinary character to the
    reader. *)
Lemma read_bare (f : string) :
  forall field fields rest,
    has_special f = false -> has_cr f = false ->
    read InField field fields (f ++ rest)
    = read InField (field ++ f) fields rest.
Proof.
  induction f as [|c f IH]; intros field fields rest Hs Hc; simpl.
  - now rewrite append_nil_r.
  - simpl in Hs, Hc. apply orb_false_iff in Hs, Hc.
    destruct Hs as [Hs Hs'], Hc as [Hc Hc'].
    unfold special in Hs. apply orb_false_iff in Hs.
    destruct Hs as [Hs Hlf]. apply orb_false_iff in Hs.
    destruct Hs as [Hd Hq].
    unfold line_break. rewrite Hlf, Hc, Hd. simpl.
    rewrite IH by assumption. now rewrite append_assoc.
Qed.

(** The characters between quotes are read back with every doubled quote
    as one quote. *)
Lemma read_doubled (f : string) :
  forall field fields rest,
    read InQuotedField field fields (doubled f ++ rest)
    = read InQuotedField (field ++ f) fields rest.
Proof.
  induction f as [|c f IH]; intros field fields rest; simpl.
  - now rewrite append_nil_r.
  - destruct (Ascii.eqb_spec c quotechar) as [->|Hne]; simpl.
    + rewrite IH. now rewrite append_assoc.
    + apply Ascii.eqb_neq in Hne. rewrite Hne, IH.
      now rewrite append_assoc.
Qed.

Lemma read_quoted_delimiter (f : string) (fields : list string)
    (rest : string) :
  read InQuotedField "" fields
    (doubled f ++ String quotechar (String delimiter rest))
  = read StartField "" (fields ++ [f])%list rest.
Proof. rewrite read_doubled. reflexivity. Qed.

Lemma read_quoted_LF (f : string) (fields : list string) (rest : string) :
  read InQuotedField "" fields
    (doubled f ++ String quotechar (String LF rest))
  = (fields ++ [f])%list :: read StartRecord "" [] rest.
Proof. rewrite read_doubled. reflexivity. Qed.

(** What the reader does with the first character of a bare field. *)
Lemma bare_first (c : ascii) (f : string) :
  has_special (String c f) = false -> has_cr (String c f) = false ->
  line_break c = false /\ (c =? quotechar)%char = false
  /\ (c =? delimiter)%char = false.
Proof.
  simpl. intros Hs Hc. apply orb_false_iff in Hs, Hc.
  destruct Hs as [Hs _], Hc as [Hc _]. unfold special in Hs.
  apply orb_false_iff in Hs. destruct Hs as [Hs Hlf].
  apply orb_false_iff in Hs. destruct Hs as [Hd Hq].
  unfold line_break. rewrite Hlf, Hc. auto.
Qed.

(** A written field followed by a delimiter is read as that field. *)
Lemma read_field_delimiter (f : string) (fields : list string)
    (rest : string) :
  plain_text f = true ->
  read StartField "" fields (write_field f ++ String delimiter rest)
  = read StartField "" (fields ++ [f])%list rest.
Proof.
  unfold plain_text, write_field. intros Hc. apply negb_true_iff in Hc.
  destruct (has_special f) eqn:Hs.
  - unfold quoted. simpl. rewrite append_assoc. simpl.
    apply read_quoted_delimiter.
  - destruct f as [|c f]; [reflexivity|].
    destruct (bare_first c f Hs Hc) as (Hb & Hq & Hd).
    simpl. rewrite Hb, Hq, Hd.
    simpl in Hs, Hc. apply orb_false_iff in Hs, Hc.
    rewrite read_bare by tauto. reflexivity.
Qed.

(** A written field followed by the line terminator ends the record. *)
Lemma read_field_LF (f : string) (fields : list string) (rest : string) :
  plain_text f = true ->
  read StartField "" fields (write_field f ++ String LF rest)
  = (fields ++ [f])%list :: read StartRecord "" [] rest.
Proof.
  unfold plain_text, write_field. intros Hc. apply negb_true_iff in Hc.
  destruct (has_special f) eqn:Hs.
  - unfold quoted. simpl. rewrite append_assoc. simpl.
    apply read_quoted_LF.
  - destruct f as [|c f]; [reflexivity|].
    destruct (bare_first c f Hs Hc) as (Hb & Hq & Hd).
    simpl. rewrite Hb, Hq, Hd.
    simpl in Hs, Hc. apply orb_false_iff in Hs, Hc.
    rewrite read_bare by tauto. reflexivity.
Qed.

(** The fields of a record, joined, are read back one by one. *)
Lemma read_join_fields (fs : list string) :
  forall fields rest,
    fs <> [] -> forallb plain_text fs = true ->
    read StartField "" fields (join_fields fs ++ String LF rest)
    = (fields ++ fs)%list :: read StartRecord "" [] rest.
Proof.
  induction fs as [|f fs IH]; intros fields rest Hne Hp; [congruence|].
  simpl in Hp. apply andb_true_iff in Hp. destruct Hp as [Hf Hp].
  destruct fs as [|g fs].
  - simpl. apply read_field_LF, Hf.
  - change (join_fields (f :: g :: fs))
      with (write_field f ++ String delimiter (join_fields (g :: fs))).
    rewrite append_assoc. simpl String.append at 2.
    rewrite read_field_delimiter by exact Hf.
    rewrite IH by (congruence || exact Hp).
    now rewrite <- app_assoc.
Qed.

(** At the start of a record, a written record that is not empty is read
    as at the start of a field. *)
Lemma read_record_start (f : string) (s : string) :
  plain_text f = true ->
  (f = "" -> exists s', s = String delimiter s') ->
  read StartRecord "" [] (write_field f ++ s)
  = read StartField "" [] (write_field f ++ s).
Proof.
  unfold plain_text, write_field. intros Hc He. apply negb_true_iff in Hc.
  destruct (has_special f) eqn:Hs; [reflexivity|].
  destruct f as [|c f].
  - destruct (He eq_refl) as [s' ->]. reflexivity.
  - destruct (bare_first c f Hs Hc) as (Hb & Hq & Hd).
    simpl. rewrite Hb, Hq, Hd. reflexivity.
Qed.

Lemma join_fields_empty (fs : list string) :
  fs <> [] -> join_fields fs = "" -> fs = [""].
Proof.
  destruct fs as [|f [|g fs]]; [congruence| |].
  - simpl. unfold write_field. intros _.
    destruct (has_special f); [discriminate|]. now intros ->.
  - intros _. change (join_fields (f :: g :: fs))
      with (write_field f ++ String delimiter (join_fields (g :: fs))).
    destruct (write_field f); discriminate.
Qed.

(** One record written, one record read. *)
Lemma read_writerow (fs : list string) (rest : string) :
  forallb plain_text fs = true ->
  read StartRecord "" [] (writerow fs ++ rest)
  = fs :: read StartRecord "" [] rest.
Proof.
  intros Hp. unfold writerow, lineterminator.
  destruct fs as [|f fs]; [reflexivity|].
  destruct (String.eqb_spec (join_fields (f :: fs)) "") as [He|Hne].
  - apply join_fields_empty in He; [|congruence].
    injection He as -> ->. reflexivity.
  - replace ((0 <? length (f :: fs))%nat && false) with false
      by now rewrite andb_false_r.
    rewrite append_assoc. simpl String.append at 2.
    transitivity
      (read StartField "" [] (join_fields (f :: fs) ++ String LF rest)).
    + simpl in Hp. apply andb_true_iff in Hp. destruct Hp as [Hf _].
      destruct fs as [|g fs].
      * simpl join_fields. apply read_record_start; [exact Hf|].
        intros ->. exfalso. apply Hne. reflexivity.
      * change (join_fields (f :: g :: fs))
          with (write_field f ++ String delimiter (join_fields (g :: fs))).
        rewrite append_assoc. apply read_record_start; [exact Hf|].
        intros _. eexists. reflexivity.
    + now rewrite read_join_fields by (congruence || exact Hp).
Qed.

(** Reading what was written gives the records back, for fields without
    carriage return. *)
Lemma reader_writerows (rows : list (list string)) :
  forallb (forallb plain_text) rows = true ->
  reader (writerows rows) = rows.
Proof.
  unfold reader. induction rows as [|r rows IH]; intros Hp;
    [reflexivity|].
  simpl in Hp. apply andb_true_iff in Hp. destruct Hp as [Hr Hp].
  simpl. rewrite read_writerow by exact Hr. now rewrite IH.
Qed.

End csv_facts.

(** ** Tables *)

Lemma unique_same_keys (ks : list string) (r : dict scalar)
    (rs : list (dict scalar)) :
  NoDup ks -> Forall (fun r => keys r = ks) (r :: rs) ->
  unique (concat (map keys (r :: rs))) = ks.
Proof.
  intros Hnd Hall. inversion Hall as [|? ? Hr Hrs]; subst. simpl.
  rewrite (unique_app_seen (length (keys r))); [|lia|].
  - now apply unique_NoDup.
  - intros a Ha. apply in_concat in Ha. destruct Ha as (l & Hl & Ha).
    apply in_map_iff in Hl. destruct Hl as (r' & <- & Hr').
    rewrite Forall_forall in Hrs. now rewrite (Hrs r' Hr') in Ha.
Qed.

Lemma dict_get_other {V : Type} (k k' : string) (v : V) (d : dict V) :
  k <> k' -> dict_get ((k, v) :: d) k' = dict_get d k'.
Proof. intros H. simpl. apply String.eqb_neq in H. now rewrite H. Qed.

(** A record is the list of its keys, each with its value. *)
Lemma record_rebuild (r : dict scalar) :
  NoDup (keys r) -> map (fun k => (k, record_value k r)) (keys r) = r.
Proof.
  induction r as [|[k v] r IH]; intros Hnd; [reflexivity|].
  inversion Hnd as [|? ? Hnin Hnd']; subst. simpl.
  unfold record_value at 1. simpl. rewrite String.eqb_refl. f_equal.
  rewrite <- (IH Hnd') at 2. apply map_ext_in. intros k' Hk'.
  unfold record_value. rewrite dict_get_other; [reflexivity|].
  intros ->. contradiction.
Qed.

Lemma rows_from_length (n : nat) :
  forall cs, length (rows_from n cs) = n.
Proof.
  induction n as [|n IH]; intros cs; simpl; [|rewrite IH]; reflexivity.
Qed.

Lemma rows_from_width (n : nat) :
  forall cs row, In row (rows_from n cs) -> keys row = keys cs.
Proof.
  induction n as [|n IH]; intros cs row; simpl; [tauto|].
  intros [<-|H].
  - unfold keys. rewrite map_map. reflexivity.
  - rewrite (IH _ _ H). unfold keys. rewrite map_map. reflexivity.
Qed.

(** The rows of a table built from records of one shape are the records. *)
Lemma rows_of_records (ks : list string) (rs : list (dict scalar)) :
  NoDup ks -> Forall (fun r => keys r = ks) rs ->
  rows_from (length rs) (map (fun k => (k, map (record_value k) rs)) ks)
  = rs.
Proof.
  intros Hnd. induction rs as [|r rs IH]; intros Hall; [reflexivity|].
  inversion Hall as [|? ? Hr Hrs]; subst.
  change (length (r :: rs)) with (S (length rs)).
  cbn [rows_from]. rewrite !map_map. cbn [fst snd map hd tl].
  rewrite IH by exact Hrs.
  now rewrite (record_rebuild r Hnd).
Qed.

Lemma DataFrame_of_columns_shape (d : dict Series) (df : DataFrame) :
  DataFrame_of_columns d = Ok df ->
  columns df = keys d /\ cols df = d
  /\ Forall (fun c => length (snd c) = index df) d
  /\ length (iterrows df) = index df.
Proof.
  unfold DataFrame_of_columns. destruct d as [|[k s] d].
  - intros [= <-]. repeat split. constructor.
  - simpl.
    match goal with
    | |- context [forallb ?f d] => destruct (forallb f d) eqn:Hall
    end; [|discriminate].
    intros [= <-]. unfold columns, iterrows. simpl.
    rewrite rows_from_length. repeat split.
    constructor; [reflexivity|].
    rewrite forallb_forall in Hall. apply Forall_forall.
    intros c Hc. apply Nat.eqb_eq, Hall, Hc.
Qed.

(** ** The chart script on a list of phases *)

Lemma phase_records_frame (p : PhaseRecord) (ps : list PhaseRecord) :
  DataFrame_of_records (map phase_dict (p :: ps))
  = mkDF (S (length ps))
      [ ("nome", map nome_cell (p :: ps));
        ("periodo", map periodo_cell (p :: ps));
        ("modal", map modal_cell (p :: ps));
        ("status", map status_cell (p :: ps));
        ("inicio", map inicio_cell (p :: ps));
        ("fim", map fim_cell (p :: ps)) ].
Proof.
  unfold DataFrame_of_records.
  change (map phase_dict (p :: ps)) with (phase_dict p :: map phase_dict ps).
  rewrite (unique_same_keys phase_keys).
  - cbn [length]. rewrite length_map.
    change (phase_dict p :: map phase_dict ps)
      with (map phase_dict (p :: ps)).
    cbn [phase_keys map]. rewrite !map_map. reflexivity.
  - repeat constructor; simpl; intuition discriminate.
  - constructor; [reflexivity|].
    apply Forall_forall. intros r Hr. apply in_map_iff in Hr.
    destruct Hr as (q & <- & _). reflexivity.
Qed.

Lemma zip_dated (ps : list PhaseRecord) :
  forall d1 d2 : Series,
    length d1 = length ps -> length d2 = length ps ->
    exists zs : list dated,
      map phase_of zs = ps /\ map start_of zs = d1 /\ map end_of zs = d2.
Proof.
  induction ps as [|p ps IH]; intros [|a d1] [|b d2] H1 H2;
    try discriminate.
  - exists []. auto.
  - injection H1 as H1. injection H2 as H2.
    destruct (IH d1 d2 H1 H2) as (zs & <- & <- & <-).
    exists ((p, a, b) :: zs). auto.
Qed.

Lemma phases_frame_rows (zs : list dated) :
  iterrows (phases_frame zs) = map phase_row zs.
Proof.
  unfold iterrows, phases_frame. cbn [index cols].
  induction zs as [|z zs IH]; [reflexivity|].
  cbn [length rows_from map fst snd hd tl]. now rewrite IH.
Qed.

Section ChartFacts.

Variable to_datetime : Series -> result Series.
Variable Scatter_valid : go.Scatter -> bool.

(** The table of the script: what it is when lines 18 to 31 succeed. *)
Lemma chart_table_inv (ps : list PhaseRecord) (df : DataFrame) :
  chart_table to_datetime (map phase_dict ps) = Ok df ->
  exists zs : list dated,
    map phase_of zs = ps /\ ps <> []
    /\ to_datetime (map inicio_cell ps) = Ok (map start_of zs)
    /\ to_datetime (map fim_cell ps) = Ok (map end_of zs)
    /\ df = phases_frame zs.
Proof.
  destruct ps as [|p ps]; [discriminate|].
  unfold chart_table. rewrite phase_records_frame. intros H.
  assert (L4 : length (map status_cell (p :: ps)) = S (length ps))
    by (now rewrite length_map).
  remember (map nome_cell (p :: ps)) as c1 eqn:E1.
  remember (map periodo_cell (p :: ps)) as c2 eqn:E2.
  remember (map modal_cell (p :: ps)) as c3 eqn:E3.
  remember (map status_cell (p :: ps)) as c4 eqn:E4.
  remember (map inicio_cell (p :: ps)) as c5 eqn:E5.
  remember (map fim_cell (p :: ps)) as c6 eqn:E6.
  remember (length ps) as n eqn:En.
  cbn in H.
  destruct (to_datetime c5) as [d1|] eqn:H1; cbn in H; [|discriminate].
  destruct (Nat.eqb_spec (length d1) (S n)) as [L1|]; cbn in H;
    [|discriminate].
  destruct (to_datetime c6) as [d2|] eqn:H2; cbn in H; [|discriminate].
  destruct (Nat.eqb_spec (length d2) (S n)) as [L2|]; cbn in H;
    [|discriminate].
  unfold Series_map in H. rewrite length_map, L4, Nat.eqb_refl in H.
  injection H as Hdf. symmetry in Hdf.
  subst n.
  destruct (zip_dated (p :: ps) d1 d2 L1 L2) as (zs & Hps & Hd1 & Hd2).
  exists zs. subst d1 d2.
  split; [exact Hps|]. split; [discriminate|].
  split; [reflexivity|]. split; [reflexivity|].
  assert (Hlen : length zs = S (length ps))
    by (now rewrite <- (length_map phase_of zs), Hps).
  subst df c1 c2 c3 c4. unfold phases_frame.
  rewrite Hlen, <- Hps, !map_map. reflexivity.
Qed.

(** The body of the loop on the row of a phase. *)
Lemma add_row_phase (fig : go.Figure) (z : dated) :
  add_row Scatter_valid fig (phase_row z)
  = let t := phase_trace (map go.name (go.data fig)) z in
    if Scatter_valid t then Ok (go.add_trace fig t) else Raise "ValueError".
Proof.
  unfold add_row, phase_row, row_get.
  cbn [dict_get String.eqb Ascii.eqb Bool.eqb bind].
  unfold Scatter, status_cell. cbn [go.StringValidator bind].
  fold (status_cell (phase_of z)).
  fold (phase_trace (map go.name (go.data fig)) z).
  cbv zeta. destruct (Scatter_valid _); reflexivity.
Qed.

(** The loop adds the traces of the phases, in order, after those the
    figure has, and leaves the layout alone. *)
Lemma add_rows_inv (zs : list dated) :
  forall fig fig',
    add_rows Scatter_valid fig (map phase_row zs) = Ok fig' ->
    go.data fig'
    = (go.data fig ++ phase_traces (map go.name (go.data fig)) zs)%list
    /\ go.layout fig' = go.layout fig.
Proof.
  induction zs as [|z zs IH]; intros fig fig'; cbn [map add_rows].
  - intros [= <-]. cbn [phase_traces]. now rewrite app_nil_r.
  - rewrite add_row_phase. cbv zeta.
    destruct (Scatter_valid _); [|discriminate]. cbn [bind].
    intros H. apply IH in H. destruct H as [Hd Hl].
    rewrite Hd, Hl. unfold go.add_trace. cbn [go.data go.layout].
    rewrite map_app, <- app_assoc. cbn [map app phase_traces].
    split; reflexivity.
Qed.

(** The loop succeeds when the library accepts every trace. *)
Lemma add_rows_ok (zs : list dated) :
  forall fig,
    forallb Scatter_valid (phase_traces (map go.name (go.data fig)) zs)
    = true ->
    add_rows Scatter_valid fig (map phase_row zs)
    = Ok (go.mkFigure
            (go.data fig
             ++ phase_traces (map go.name (go.data fig)) zs)%list
            (go.layout fig)).
Proof.
  induction zs as [|z zs IH]; intros fig; cbn [map add_rows phase_traces].
  - intros _. rewrite app_nil_r. now destruct fig.
  - cbn [forallb]. intros H. apply andb_true_iff in H.
    destruct H as [Ht Hts]. rewrite add_row_phase. cbv zeta.
    rewrite Ht. cbn [bind]. rewrite IH.
    + unfold go.add_trace. cbn [go.data go.layout].
      rewrite map_app, <- app_assoc. reflexivity.
    + unfold go.add_trace. cbn [go.data]. rewrite map_app. exact Hts.
Qed.

(** The figure of the script, when the script succeeds. *)
Lemma chart_script_inv (ps : list PhaseRecord) (fig : go.Figure) :
  chart_script to_datetime Scatter_valid (map phase_dict ps) = Ok fig ->
  exists zs : list dated,
    map phase_of zs = ps /\ ps <> []
    /\ to_datetime (map inicio_cell ps) = Ok (map start_of zs)
    /\ to_datetime (map fim_cell ps) = Ok (map end_of zs)
    /\ go.data fig = phase_traces [] zs
    /\ go.layout fig = chart_layout (map nome_cell ps).
Proof.
  unfold chart_script.
  destruct (chart_table to_datetime (map phase_dict ps)) as [df|] eqn:Hdf;
    [|discriminate].
  apply chart_table_inv in Hdf.
  destruct Hdf as (zs & Hps & Hne & H1 & H2 & ->).
  cbn [bind]. rewrite phases_frame_rows.
  destruct (add_rows _ _ _) as [fig1|] eqn:Hrows; [|discriminate].
  apply add_rows_inv in Hrows. destruct Hrows as [Hd Hl].
  cbn [bind]. intros H. cbn in H. injection H as <-. exists zs.
  split; [exact Hps|]. split; [exact Hne|].
  split; [exact H1|]. split; [exact H2|]. split.
  - cbn. exact Hd.
  - cbn. rewrite <- Hps, map_map. reflexivity.
Qed.

(** The script succeeds when the table has a phase, both date columns
    convert and the library accepts every trace. *)
Lemma chart_script_ok (zs : list dated) :
  zs <> [] ->
  to_datetime (map (fun z => inicio_cell (phase_of z)) zs)
  = Ok (map start_of zs) ->
  to_datetime (map (fun z => fim_cell (phase_of z)) zs)
  = Ok (map end_of zs) ->
  forallb Scatter_valid (phase_traces [] zs) = true ->
  chart_script to_datetime Scatter_valid
    (map phase_dict (map phase_of zs))
  = Ok (go.mkFigure (phase_traces [] zs)
          (chart_layout (map (fun z => nome_cell (phase_of z)) zs))).
Proof.
  intros Hne H1 H2 Hv.
  assert (Hdf : chart_table to_datetime (map phase_dict (map phase_of zs))
                = Ok (phases_frame zs)).
  { destruct zs as [|z zs]; [congruence|].
    unfold chart_table.
    change (map phase_of (z :: zs)) with (phase_of z :: map phase_of zs).
    rewrite phase_records_frame.
    change (phase_of z :: map phase_of zs) with (map phase_of (z :: zs)).
    rewrite !map_map.
    unfold getitem at 1.
    cbn [cols dict_get String.eqb Ascii.eqb Bool.eqb]. cbn [bind].
    rewrite H1. cbn [bind]. unfold setitem at 1.
    cbn [index Nat.eqb andb]. rewrite !length_map. cbn [length].
    rewrite Nat.eqb_refl.
    cbn [bind cols dict_set String.eqb Ascii.eqb Bool.eqb].
    unfold getitem at 1.
    cbn [cols dict_get String.eqb Ascii.eqb Bool.eqb]. cbn [bind].
    rewrite H2. cbn [bind]. unfold setitem at 1.
    cbn [index Nat.eqb andb]. rewrite !length_map. cbn [length].
    rewrite Nat.eqb_refl.
    cbn [bind cols dict_set String.eqb Ascii.eqb Bool.eqb].
    unfold getitem at 1.
    cbn [cols dict_get String.eqb Ascii.eqb Bool.eqb]. cbn [bind].
    unfold setitem. cbn [index Nat.eqb andb].
    unfold Series_map. rewrite !length_map. cbn [length].
    rewrite Nat.eqb_refl.
    cbn [cols dict_set String.eqb Ascii.eqb Bool.eqb].
    unfold phases_frame. rewrite !map_map. reflexivity. }
  unfold chart_script. rewrite Hdf. cbn [bind].
  rewrite phases_frame_rows, add_rows_ok by exact Hv.
  cbn. reflexivity.
Qed.

End ChartFacts.

(** ** The traces of the phases *)

Lemma phase_traces_length (zs : list dated) :
  forall seen, length (phase_traces seen zs) = length zs.
Proof.
  induction zs as [|z zs IH]; intros seen; simpl; [|rewrite IH];
    reflexivity.
Qed.

Lemma phase_traces_names (zs : list dated) :
  forall seen, map go.name (phase_traces seen zs) = map status_of zs.
Proof.
  induction zs as [|z zs IH]; intros seen; simpl; [|rewrite IH];
    reflexivity.
Qed.

(** The trace at a position is the trace of the phase at that position,
    [seen] grown by the statuses of the phases before it. *)
Lemma phase_traces_nth (zs : list dated) :
  forall seen i,
    nth_error (phase_traces seen zs) i
    = option_map
        (phase_trace (seen ++ firstn i (map status_of zs))%list)
        (nth_error zs i).
Proof.
  induction zs as [|z zs IH]; intros seen [|i]; simpl; try reflexivity.
  - now rewrite app_nil_r.
  - rewrite IH, <- app_assoc. reflexivity.
Qed.

Lemma not_in_app (s a : string) (seen : list string) :
  not_in (Str a) (seen ++ [s])%list
  = negb (s =? a)%string && not_in (Str a) seen.
Proof.
  unfold not_in. rewrite existsb_app. simpl.
  rewrite orb_false_r, negb_orb, andb_comm, (String.eqb_sym a s).
  reflexivity.
Qed.

(** The names shown in the legend: the statuses not seen before, each
    once, in order. *)
Lemma phase_traces_legend (zs : list dated) :
  forall seen,
    map go.name (filter go.showlegend (phase_traces seen zs))
    = filter (fun s => not_in (Str s) seen) (unique (map status_of zs)).
Proof.
  induction zs as [|z zs IH]; intros seen; [reflexivity|].
  cbn [phase_traces map unique filter].
  assert (Hrest :
    map go.name
      (filter go.showlegend (phase_traces (seen ++ [status_of z])%list zs))
    = filter (fun s => not_in (Str s) seen)
        (filter (fun b => negb (status_of z =? b)%string)
           (unique (map status_of zs)))).
  { rewrite IH, filter_and. apply filter_ext. intros a.
    apply not_in_app. }
  change (go.showlegend (phase_trace seen z))
    with (not_in (Str (status_of z)) seen).
  destruct (not_in (Str (status_of z)) seen); cbn [map];
    unfold status_of in *; rewrite Hrest; reflexivity.
Qed.

Lemma nth_error_dated (zs : list dated) (i : nat) (p : PhaseRecord) :
  nth_error (map phase_of zs) i = Some p ->
  exists z, nth_error zs i = Some z /\ phase_of z = p.
Proof.
  rewrite nth_error_map. destruct (nth_error zs i) as [z|]; [|discriminate].
  intros [= <-]. now exists z.
Qed.

Lemma dict_get_None {V : Type} (d : dict V) (k : string) :
  ~ In k (keys d) -> dict_get d k = None.
Proof.
  induction d as [|[k' v] d IH]; simpl; [reflexivity|].
  intros H. destruct (String.eqb_spec k' k) as [->|_]; [tauto|].
  apply IH. tauto.
Qed.

(** ** Status colours in the table and in the figure *)

(** C1, as amended: a status that is not one of the three keys of
    [status_colors] raises no error when its colour is looked up; the lookup
    gives the missing value [NaN], and the table of the script is built with
    [NaN] in the [color] cell of every phase with such a status. *)
Theorem unmapped_status_maps_to_NaN
    (to_datetime : Series -> result Series)
    (ps : list PhaseRecord) (df : DataFrame) :
  chart_table to_datetime (map phase_dict ps) = Ok df ->
  exists colors : Series,
    getitem df "color" = Ok colors
    /\ length colors = length ps
    /\ forall i p,
         nth_error ps i = Some p ->
         ~ In (status p) known_statuses ->
         map_value status_colors (Str (status p)) = NaN
         /\ nth_error colors i = Some NaN.
Proof.
  intros H. apply chart_table_inv in H.
  destruct H as (zs & Hps & _ & _ & _ & ->).
  exists (map (fun z => color_cell (phase_of z)) zs).
  split; [reflexivity|]. split; [now rewrite <- Hps, !length_map|].
  intros i p Hp Hs. rewrite <- Hps in Hp.
  apply nth_error_dated in Hp. destruct Hp as (z & Hz & <-).
  assert (Hc : map_value status_colors (Str (status (phase_of z))) = NaN).
  { unfold map_value. now rewrite (dict_get_None _ _ Hs). }
  split; [exact Hc|].
  rewrite nth_error_map, Hz. cbn [option_map]. unfold color_cell, status_cell.
  now rewrite Hc.
Qed.

Lemma unmapped_status_maps_to_NaN_witness :
  exists df,
    chart_table iso_to_datetime (map phase_dict [cancelled_phase]) = Ok df
    /\ exists colors,
         getitem df "color" = Ok colors /\ nth_error colors 0 = Some NaN.
Proof.
  destruct (chart_table iso_to_datetime (map phase_dict [cancelled_phase]))
    as [df|] eqn:H; [|vm_compute in H; discriminate].
  exists df. split; [reflexivity|].
  destruct (unmapped_status_maps_to_NaN _ _ _ H) as (colors & Hc & _ & Hn).
  exists colors. split; [exact Hc|].
  apply (Hn 0%nat cancelled_phase); [reflexivity|].
  vm_compute. intuition discriminate.
Defined.

(** The colour lookup of a status outside the table returns; nothing is
    raised, and line 31 leaves [NaN] in the table. *)
Lemma unmapped_status_no_error :
  ~ In "Cancelado" known_statuses
  /\ Series_map status_colors [Str "Cancelado"] = [NaN]
  /\ exists df,
       chart_table iso_to_datetime (map phase_dict [cancelled_phase]) = Ok df
       /\ getitem df "color" = Ok [NaN]
       /\ chart_table iso_to_datetime (map phase_dict [cancelled_phase])
          <> Raise "UnmappedStatusError".
Proof.
  split; [vm_compute; intuition discriminate|].
  split; [reflexivity|].
  eexists. split; [vm_compute; reflexivity|].
  split; [reflexivity|]. vm_compute. discriminate.
Qed.

(** C7: every known status has one fixed colour, the same at every lookup,
    and in a figure the script produces the line and the marker of every
    trace carry the colour of the status of its phase. *)
Theorem status_color_fixed
    (to_datetime : Series -> result Series)
    (Scatter_valid : go.Scatter -> bool)
    (ps : list PhaseRecord) (fig : go.Figure) :
  chart_script to_datetime Scatter_valid (map phase_dict ps) = Ok fig ->
  map_value status_colors (Str "Implementado") = Str "#2E8B57"
  /\ map_value status_colors (Str "Em Andamento") = Str "#1FB8CD"
  /\ map_value status_colors (Str "Previsto") = Str "#D2BA4C"
  /\ (forall (col : Series) i j v,
        nth_error col i = Some v -> nth_error col j = Some v ->
        nth_error (Series_map status_colors col) i
        = nth_error (Series_map status_colors col) j)
  /\ (forall i p t,
        nth_error ps i = Some p -> nth_error (go.data fig) i = Some t ->
        go.line_color t = map_value status_colors (Str (status p))
        /\ go.marker_color t = map_value status_colors (Str (status p))).
Proof.
  intros H. repeat (split; [reflexivity|]). split.
  - intros col i j v Hi Hj. unfold Series_map.
    now rewrite !nth_error_map, Hi, Hj.
  - apply chart_script_inv in H.
    destruct H as (zs & Hps & _ & _ & _ & Hd & _).
    intros i p t Hp Ht. rewrite <- Hps in Hp.
    apply nth_error_dated in Hp. destruct Hp as (z & Hz & <-).
    rewrite Hd, phase_traces_nth, Hz in Ht. injection Ht as <-.
    split; reflexivity.
Qed.

Lemma status_color_fixed_witness :
  exists fig,
    run_chart fases = Ok fig
    /\ map go.line_color (go.data fig)
       = [Str "#2E8B57"; Str "#2E8B57"; Str "#1FB8CD"; Str "#1FB8CD";
          Str "#D2BA4C"]
    /\ forall i p t,
         nth_error fases i = Some p -> nth_error (go.data fig) i = Some t ->
         go.line_color t = map_value status_colors (Str (status p))
         /\ go.marker_color t = map_value status_colors (Str (status p)).
Proof.
  destruct (run_chart fases) as [fig|] eqn:H; [|vm_compute in H; discriminate].
  exists fig. split; [reflexivity|].
  split; [vm_compute in H; injection H as <-; reflexivity|].
  apply (status_color_fixed _ _ _ _ H).
Defined.

(** ** The legend *)

(** C2: in a figure the script produces there is one trace per phase; every
    distinct status has exactly one legend entry, however many phases carry
    it; the entry belongs to the first phase with that status (a trace is
    shown in the legend exactly when no phase before it has its status);
    and the legend lists the statuses in the order of their first
    occurrence in the input. *)
Theorem legend_first_occurrence
    (to_datetime : Series -> result Series)
    (Scatter_valid : go.Scatter -> bool)
    (ps : list PhaseRecord) (fig : go.Figure) :
  chart_script to_datetime Scatter_valid (map phase_dict ps) = Ok fig ->
  length (go.data fig) = length ps
  /\ map go.name (go.data fig) = map status ps
  /\ go.legend_entries fig = unique (map status ps)
  /\ NoDup (go.legend_entries fig)
  /\ (forall s, In s (go.legend_entries fig) <-> In s (map status ps))
  /\ (forall s, In s (map status ps) ->
        count_occ string_dec (go.legend_entries fig) s = 1%nat)
  /\ (forall i t, nth_error (go.data fig) i = Some t ->
        go.showlegend t
        = negb (existsb (String.eqb (go.name t))
                  (firstn i (map status ps)))).
Proof.
  intros H. apply chart_script_inv in H.
  destruct H as (zs & Hps & _ & _ & _ & Hd & _).
  assert (Hst : map status_of zs = map status ps)
    by (rewrite <- Hps, map_map; reflexivity).
  assert (Hleg : go.legend_entries fig = unique (map status ps)).
  { unfold go.legend_entries. rewrite Hd, phase_traces_legend, Hst.
    rewrite (filter_ext _ (fun _ => true)) by reflexivity.
    induction (unique (map status ps)); simpl; congruence. }
  split; [now rewrite Hd, phase_traces_length, <- Hps, length_map|].
  split; [now rewrite Hd, phase_traces_names|].
  split; [exact Hleg|].
  split; [rewrite Hleg; apply NoDup_unique|].
  split; [intros s; rewrite Hleg; split;
          [apply unique_incl | apply In_unique]|].
  split.
  - intros s Hs. apply NoDup_count_occ'.
    + rewrite Hleg. apply NoDup_unique.
    + rewrite Hleg. apply In_unique, Hs.
  - intros i t Ht. rewrite Hd, phase_traces_nth in Ht.
    destruct (nth_error zs i) as [z|]; [|discriminate].
    injection Ht as <-. rewrite <- Hst. reflexivity.
Qed.

(** The two-phase case: both phases are [Implementado]; the figure has two
    segments and one legend entry. *)
Lemma legend_first_occurrence_witness :
  exists fig,
    run_chart two_phases = Ok fig
    /\ map status two_phases = ["Implementado"; "Implementado"]
    /\ length (go.data fig) = 2%nat
    /\ go.legend_entries fig = ["Implementado"]
    /\ map go.showlegend (go.data fig) = [true; false].
Proof.
  destruct (run_chart two_phases) as [fig|] eqn:H;
    [|vm_compute in H; discriminate].
  exists fig. split; [reflexivity|]. split; [reflexivity|].
  destruct (legend_first_occurrence _ _ _ _ H) as (Hlen & _ & Hleg & _).
  split; [exact Hlen|]. split; [exact Hleg|].
  vm_compute in H. injection H as <-. reflexivity.
Defined.

(** ** The axes *)

(** C4: whatever the phases and their dates, a figure the script produces
    has the x-axis range set to the bounds of line 76, [2024-09-15] to
    [2026-01-15]; the range is not computed from the dates. *)
Theorem xaxis_range_fixed
    (to_datetime : Series -> result Series)
    (Scatter_valid : go.Scatter -> bool)
    (ps : list PhaseRecord) (fig : go.Figure) :
  chart_script to_datetime Scatter_valid (map phase_dict ps) = Ok fig ->
  go.xaxis_range (go.layout fig) = Some ("2024-09-15", "2026-01-15").
Proof.
  intros H. apply chart_script_inv in H.
  destruct H as (zs & _ & _ & _ & _ & _ & ->). reflexivity.
Qed.

(** The phases of the script lie inside the bounds, the first one starts
    after the lower bound and the last one ends before the upper bound, and
    the axis shows the bounds. *)
Lemma xaxis_range_fixed_witness :
  exists fig,
    run_chart fases = Ok fig
    /\ go.xaxis_range (go.layout fig) = Some ("2024-09-15", "2026-01-15")
    /\ map go.x (firstn 1 (go.data fig))
       = [[Timestamp (mkDate 2024 10 1); Timestamp (mkDate 2024 12 31)]]
    /\ map go.x (skipn 4 (go.data fig))
       = [[Timestamp (mkDate 2025 10 1); Timestamp (mkDate 2025 12 31)]].
Proof.
  destruct (run_chart fases) as [fig|] eqn:H; [|vm_compute in H; discriminate].
  exists fig. split; [reflexivity|].
  split; [exact (xaxis_range_fixed _ _ _ _ H)|].
  vm_compute in H. injection H as <-. split; reflexivity.
Defined.

(** C5: a figure the script produces orders the categories of its y-axis
    by the array of the phase names in input order, and the trace of every
    phase lies on the category of its name. *)
Theorem yaxis_order_is_input_order
    (to_datetime : Series -> result Series)
    (Scatter_valid : go.Scatter -> bool)
    (ps : list PhaseRecord) (fig : go.Figure) :
  chart_script to_datetime Scatter_valid (map phase_dict ps) = Ok fig ->
  go.yaxis_categoryorder (go.layout fig) = Some "array"
  /\ go.yaxis_categoryarray (go.layout fig) = Some (map nome_cell ps)
  /\ map go.y (go.data fig) = map (fun p => [nome_cell p; nome_cell p]) ps.
Proof.
  intros H. apply chart_script_inv in H.
  destruct H as (zs & Hps & _ & _ & _ & Hd & ->).
  split; [reflexivity|]. split; [reflexivity|].
  rewrite Hd, <- Hps, map_map. clear. generalize (@nil string).
  induction zs as [|z zs IH]; intros seen; simpl; [|rewrite IH];
    reflexivity.
Qed.

(** Names given out of alphabetical order stay in the order given. *)
Lemma yaxis_order_is_input_order_witness :
  exists fig,
    run_chart (rev fases) = Ok fig
    /\ go.yaxis_categoryarray (go.layout fig)
       = Some [Str "Fase 3B"; Str "Fase 3A"; Str "Fase 2B"; Str "Fase 2A";
               Str "Fase 1"].
Proof.
  destruct (run_chart (rev fases)) as [fig|] eqn:H;
    [|vm_compute in H; discriminate].
  exists fig. split; [reflexivity|].
  destruct (yaxis_order_is_input_order _ _ _ _ H) as (_ & Hc & _).
  exact Hc.
Defined.

(** ** The hover text *)

Lemma occurs_in_middle (a s b : string) : occurs_in s (a ++ s ++ b).
Proof. now exists a, b. Qed.

(** C9: the hover text of the trace of a phase is the fixed frame of lines
    46 to 50 around the phase's [modal], [status] and [periodo], each
    inserted as it is. *)
Theorem hover_text_verbatim
    (to_datetime : Series -> result Series)
    (Scatter_valid : go.Scatter -> bool)
    (ps : list PhaseRecord) (fig : go.Figure) (i : nat)
    (p : PhaseRecord) (t : go.Scatter) :
  chart_script to_datetime Scatter_valid (map phase_dict ps) = Ok fig ->
  nth_error ps i = Some p ->
  nth_error (go.data fig) i = Some t ->
  go.hovertemplate t
  = "<b>%{y}</b><br>Modal: " ++ modal p ++ "<br>Status: " ++ status p
    ++ "<br>Período: " ++ periodo p ++ "<br><extra></extra>"
  /\ occurs_in (modal p) (go.hovertemplate t)
  /\ occurs_in (status p) (go.hovertemplate t)
  /\ occurs_in (periodo p) (go.hovertemplate t).
Proof.
  intros H Hp Ht. apply chart_script_inv in H.
  destruct H as (zs & Hps & _ & _ & _ & Hd & _).
  rewrite <- Hps in Hp. apply nth_error_dated in Hp.
  destruct Hp as (z & Hz & <-).
  rewrite Hd, phase_traces_nth, Hz in Ht. injection Ht as <-.
  cbn [go.hovertemplate phase_trace].
  set (m := modal (phase_of z)). set (s := status (phase_of z)).
  set (q := periodo (phase_of z)).
  assert (E : hover_text (modal_cell (phase_of z)) (status_cell (phase_of z))
                (periodo_cell (phase_of z))
              = "<b>%{y}</b><br>Modal: " ++ m ++ "<br>Status: " ++ s
                ++ "<br>Período: " ++ q ++ "<br><extra></extra>").
  { unfold hover_text, modal_cell, status_cell, periodo_cell, py_str.
    fold m s q. rewrite !append_assoc. reflexivity. }
  rewrite E. split; [reflexivity|]. split; [|split].
  - apply occurs_in_middle.
  - rewrite <- !(append_assoc _ _ (s ++ _)). apply occurs_in_middle.
  - rewrite <- !(append_assoc _ _ (q ++ _)). apply occurs_in_middle.
Qed.

Lemma hover_text_verbatim_witness :
  exists fig t,
    run_chart fases = Ok fig
    /\ nth_error (go.data fig) 2 = Some t
    /\ go.hovertemplate t
       = "<b>%{y}</b><br>Modal: Modal Aéreo (cont.)<br>Status: Em Andamento<br>Período: Abr-Jun 2025<br><extra></extra>".
Proof.
  destruct (run_chart fases) as [fig|] eqn:H; [|vm_compute in H; discriminate].
  destruct (nth_error (go.data fig) 2) as [t|] eqn:Ht;
    [|vm_compute in H; injection H as <-; discriminate].
  exists fig, t. split; [reflexivity|]. split; [exact Ht|].
  destruct (hover_text_verbatim _ _ fases fig 2%nat
              (mkPhase "Fase 2B" "Abr-Jun 2025" "Modal Aéreo (cont.)"
                 "Em Andamento" "2025-04-01" "2025-06-30") t H eq_refl Ht)
    as [E _].
  exact E.
Defined.

(** ** Dates out of order *)

(** A phase that ends before it starts is drawn, from its start to its
    end. *)
Lemma reversed_phase_is_rendered :
  dates_in_order reversed_phase = false
  /\ phase_dates reversed_phase
     = Some (mkDate 2025 3 31, mkDate 2025 1 1)
  /\ exists fig,
       run_chart [reversed_phase] = Ok fig
       /\ map go.x (go.data fig)
          = [[Timestamp (mkDate 2025 3 31); Timestamp (mkDate 2025 1 1)]].
Proof.
  split; [reflexivity|]. split; [reflexivity|].
  eexists. split; [vm_compute; reflexivity|]. reflexivity.
Qed.

(** C3, as amended: the script makes no check of the order of the two dates.
    Whenever both date columns convert and the plotting library accepts the
    traces, the figure is produced, and the segment of every phase runs from
    its converted start to its converted end, whichever comes first. The
    five phases of the script itself start before they end. *)
Theorem dates_not_checked
    (to_datetime : Series -> result Series)
    (Scatter_valid : go.Scatter -> bool)
    (z : dated) (zs : list dated) :
  to_datetime (map (fun z => inicio_cell (phase_of z)) (z :: zs))
  = Ok (map start_of (z :: zs)) ->
  to_datetime (map (fun z => fim_cell (phase_of z)) (z :: zs))
  = Ok (map end_of (z :: zs)) ->
  forallb Scatter_valid (phase_traces [] (z :: zs)) = true ->
  (exists fig,
     chart_script to_datetime Scatter_valid
       (map phase_dict (map phase_of (z :: zs))) = Ok fig
     /\ map go.x (go.data fig)
        = map (fun z => [start_of z; end_of z]) (z :: zs))
  /\ forallb dates_in_order fases = true.
Proof.
  intros H1 H2 Hv. split; [|reflexivity].
  eexists. split.
  - apply chart_script_ok; [discriminate|assumption..].
  - cbn [go.data]. generalize (@nil string). generalize (z :: zs).
    clear. intros l. induction l as [|a l IH]; intros seen; simpl;
      [|rewrite IH]; reflexivity.
Qed.

Lemma dates_not_checked_witness :
  dates_in_order reversed_phase = false
  /\ exists fig,
       chart_script iso_to_datetime text_line_color
         (map phase_dict [reversed_phase]) = Ok fig
       /\ map go.x (go.data fig)
          = [[Timestamp (mkDate 2025 3 31); Timestamp (mkDate 2025 1 1)]].
Proof.
  split; [reflexivity|].
  destruct (dates_not_checked iso_to_datetime text_line_color
              (reversed_phase, Timestamp (mkDate 2025 3 31),
               Timestamp (mkDate 2025 1 1)) []
              eq_refl eq_refl eq_refl) as [[fig [H Hx]] _].
  exists fig. split; [exact H | exact Hx].
Defined.

(** ** Building tables *)

Lemma keys_eqb_eq (a : list string) :
  forall b, keys_eqb a b = true -> a = b.
Proof.
  induction a as [|x a IH]; intros [|y b]; simpl; try discriminate;
    [reflexivity|].
  intros H. apply andb_true_iff in H. destruct H as [Hx Hab].
  apply String.eqb_eq in Hx. subst. f_equal. apply IH, Hab.
Qed.

Lemma uniform_shape_spec (r : dict scalar) (rs : list (dict scalar)) :
  uniform_shape (r :: rs) = true ->
  NoDup (keys r) /\ Forall (fun r' => keys r' = keys r) (r :: rs).
Proof.
  unfold uniform_shape, distinct_keys. intros H.
  apply andb_true_iff in H. destruct H as [Hd Hall]. split.
  - apply keys_eqb_eq in Hd. rewrite <- Hd. apply NoDup_unique.
  - rewrite forallb_forall in Hall. apply Forall_forall.
    intros r' Hr'. apply keys_eqb_eq, Hall, Hr'.
Qed.

(** The cells of a row, by position. *)
Lemma rows_from_nth (n : nat) :
  forall (cs : dict Series) (i : nat),
    (i < n)%nat ->
    nth_error (rows_from n cs) i
    = Some (map (fun kc => (fst kc, nth i (snd kc) NaN)) cs).
Proof.
  induction n as [|n IH]; intros cs i Hi; [lia|].
  destruct i as [|i]; simpl.
  - f_equal. apply map_ext. intros [k [|v s]]; reflexivity.
  - rewrite IH by lia. rewrite map_map. f_equal. apply map_ext.
    intros [k [|v s]]; simpl; [destruct i|]; reflexivity.
Qed.

(** The table built from columns has row [i] made of the [i]-th value of
    every column, in column order. *)
Lemma DataFrame_of_columns_rows (d : dict Series) (df : DataFrame)
    (i : nat) :
  DataFrame_of_columns d = Ok df -> (i < index df)%nat ->
  nth_error (iterrows df) i
  = Some (map (fun kc => (fst kc, nth i (snd kc) NaN)) d).
Proof.
  intros H Hi. destruct (DataFrame_of_columns_shape d df H) as (_ & Hc & _).
  unfold iterrows. rewrite Hc. apply rows_from_nth, Hi.
Qed.

(** C8: the table built from records of uniform shape has as many rows as
    there are records; its rows, read in order, are the records themselves,
    each with its fields in the order of declaration; and its columns are
    the fields in that order. *)
Theorem build_table_preserves_records (rs : list (dict scalar)) :
  uniform_shape rs = true ->
  index (DataFrame_of_records rs) = length rs
  /\ length (iterrows (DataFrame_of_records rs)) = length rs
  /\ iterrows (DataFrame_of_records rs) = rs
  /\ columns (DataFrame_of_records rs) = fields_of rs.
Proof.
  intros H. destruct rs as [|r rs]; [repeat split|].
  apply uniform_shape_spec in H. destruct H as [Hnd Hall].
  assert (Hrows : iterrows (DataFrame_of_records (r :: rs)) = r :: rs).
  { unfold iterrows, DataFrame_of_records. cbn [index cols].
    rewrite (unique_same_keys (keys r)) by assumption.
    apply rows_of_records; assumption. }
  split; [reflexivity|]. split; [now rewrite Hrows|].
  split; [exact Hrows|].
  unfold columns, DataFrame_of_records. cbn [cols fields_of].
  rewrite (unique_same_keys (keys r)) by assumption.
  unfold keys at 1. rewrite map_map. cbn [fst]. apply map_id.
Qed.

Lemma build_table_preserves_records_witness :
  uniform_shape (map phase_dict fases) = true
  /\ index (DataFrame_of_records (map phase_dict fases)) = 5%nat
  /\ iterrows (DataFrame_of_records (map phase_dict fases))
     = map phase_dict fases
  /\ columns (DataFrame_of_records (map phase_dict fases)) = phase_keys.
Proof.
  split; [reflexivity|].
  destruct (build_table_preserves_records (map phase_dict fases) eq_refl)
    as (Hi & _ & Hr & Hc).
  split; [exact Hi|]. split; [exact Hr | exact Hc].
Defined.

(** ** Exporting tables *)

Lemma csv_rows_length (df : DataFrame) : length (csv_rows df) = index df.
Proof.
  unfold csv_rows, iterrows. now rewrite length_map, rows_from_length.
Qed.

Lemma csv_rows_width (df : DataFrame) :
  Forall (fun r => length r = length (columns df)) (csv_rows df).
Proof.
  apply Forall_forall. intros r Hr. unfold csv_rows in Hr.
  apply in_map_iff in Hr. destruct Hr as (row & <- & Hrow).
  apply rows_from_width in Hrow. unfold columns. rewrite <- Hrow.
  unfold keys. now rewrite !length_map.
Qed.

Lemma text_cell_spec (v : scalar) :
  text_cell v = true -> plain_text (csv_text v) = true /\ Str (csv_text v) = v.
Proof. destruct v; simpl; try discriminate. auto. Qed.

Lemma text_cells_rows (rows : list (dict scalar)) :
  forallb (forallb text_cell) (map (fun row => map snd row) rows) = true ->
  forallb (forallb plain_text)
    (map (fun row => map (fun kv => csv_text (snd kv)) row) rows) = true
  /\ map (map Str)
       (map (fun row => map (fun kv => csv_text (snd kv)) row) rows)
     = map (fun row => map snd row) rows.
Proof.
  induction rows as [|row rows IH]; [auto|].
  cbn [map forallb]. intros H. apply andb_true_iff in H.
  destruct H as [Hrow Hrows]. destruct (IH Hrows) as [IH1 IH2].
  rewrite IH1, IH2.
  assert (Hr : forallb plain_text (map (fun kv => csv_text (snd kv)) row)
               = true
               /\ map Str (map (fun kv => csv_text (snd kv)) row)
                  = map snd row).
  { clear - Hrow. induction row as [|[k v] row IHr]; [auto|].
    cbn [map forallb snd] in *. apply andb_true_iff in Hrow.
    destruct Hrow as [Hv Hrow]. destruct (IHr Hrow) as [I1 I2].
    destruct (text_cell_spec v Hv) as [T1 T2].
    now rewrite T1, T2, I1, I2. }
  destruct Hr as [R1 R2]. now rewrite R1, R2.
Qed.

(** The file is the records written one after the other, the labels
    first. *)
Lemma to_csv_records (df : DataFrame) :
  to_csv df = csv.writerows (columns df :: csv_rows df).
Proof. reflexivity. Qed.

(** A file whose labels and cells have no carriage return reads back as its
    labels followed by its rows. *)
Lemma reader_to_csv (df : DataFrame) :
  forallb (forallb plain_text) (columns df :: csv_rows df) = true ->
  csv.reader (to_csv df) = columns df :: csv_rows df.
Proof.
  intros H. rewrite to_csv_records. apply csv_facts.reader_writerows, H.
Qed.

Lemma count_char_app (c : ascii) (a b : string) :
  count_char c (a ++ b) = (count_char c a + count_char c b)%nat.
Proof.
  induction a as [|x a IH]; simpl; [reflexivity|]. rewrite IH. lia.
Qed.

Lemma line_feeds_doubled (s : string) :
  line_feeds (csv.doubled s) = line_feeds s.
Proof.
  unfold line_feeds. induction s as [|c s IH]; simpl; [reflexivity|].
  destruct (Ascii.eqb_spec c csv.quotechar) as [->|_]; simpl;
    rewrite IH; reflexivity.
Qed.

Lemma line_feeds_write_field (f : string) :
  line_feeds (csv.write_field f) = line_feeds f.
Proof.
  unfold csv.write_field, csv.quoted. destruct (csv.has_special f);
    [|reflexivity].
  unfold line_feeds. cbn [count_char]. rewrite count_char_app.
  fold (line_feeds (csv.doubled f)). rewrite line_feeds_doubled.
  cbn. unfold line_feeds. lia.
Qed.

Lemma line_feeds_join_fields (fs : list string) :
  forallb single_line fs = true -> line_feeds (csv.join_fields fs) = 0%nat.
Proof.
  induction fs as [|f fs IH]; [reflexivity|].
  cbn [forallb]. intros H. apply andb_true_iff in H. destruct H as [Hf Hfs].
  apply Nat.eqb_eq in Hf. destruct fs as [|g fs].
  - simpl. now rewrite line_feeds_write_field.
  - change (csv.join_fields (f :: g :: fs))
      with (csv.write_field f
            ++ String csv.delimiter (csv.join_fields (g :: fs))).
    unfold line_feeds. rewrite count_char_app. cbn [count_char].
    fold (line_feeds (csv.write_field f)).
    fold (line_feeds (csv.join_fields (g :: fs))).
    rewrite line_feeds_write_field, Hf, (IH Hfs). reflexivity.
Qed.

Lemma line_feeds_writerow (fs : list string) :
  forallb single_line fs = true -> line_feeds (csv.writerow fs) = 1%nat.
Proof.
  intros H. unfold csv.writerow, line_feeds. rewrite count_char_app.
  destruct (_ && _).
  - reflexivity.
  - fold (line_feeds (csv.join_fields fs)).
    now rewrite (line_feeds_join_fields fs H).
Qed.

(** Records without line feed in their fields take one line each. *)
Lemma line_feeds_writerows (rows : list (list string)) :
  forallb (forallb single_line) rows = true ->
  line_feeds (csv.writerows rows) = length rows.
Proof.
  induction rows as [|r rows IH]; [reflexivity|].
  cbn [forallb csv.writerows length]. intros H.
  apply andb_true_iff in H. destruct H as [Hr Hrows].
  unfold line_feeds. rewrite count_char_app.
  fold (line_feeds (csv.writerow r)). fold (line_feeds (csv.writerows rows)).
  now rewrite (line_feeds_writerow r Hr), (IH Hrows).
Qed.

(** An empty text and a missing value are written the same way, and a bare
    carriage return is read back as a line break. *)
Lemma csv_round_trip_fails :
  ~ (forall df : DataFrame,
       exists body,
         csv.reader (to_csv df) = columns df :: body
         /\ map (map Str) body = values df)
  /\ (exists t1 t2,
        DataFrame_of_columns empty_text_data = Ok t1
        /\ DataFrame_of_columns missing_value_data = Ok t2
        /\ values t1 = [[Str ""; Str "x"]]
        /\ values t2 = [[NaN; Str "x"]]
        /\ to_csv t1 = to_csv t2
        /\ csv.reader (to_csv t2) = [["a"; "b"]; [""; "x"]])
  /\ (exists t3,
        DataFrame_of_columns carriage_return_data = Ok t3
        /\ values t3 = [[Str ("x" ++ String csv.CR "y")]]
        /\ csv.reader (to_csv t3) = [["a"]; ["x"]; ["y"]]).
Proof.
  split; [|split].
  - intros H. destruct (H (mkDF 1 missing_value_data)) as (body & Hr & Hv).
    vm_compute in Hr. injection Hr as <-. vm_compute in Hv. discriminate.
  - do 2 eexists. repeat split.
  - eexists. repeat split.
Qed.

(** C6, as amended: for every table whose column labels and cells are texts
    without carriage return (commas, quotes, line feeds and accented
    characters included), reading the exported file gives the labels, then
    the rows, and the texts read are the original cells, in the original
    row and column order. *)
Theorem csv_round_trip_text_tables (df : DataFrame) :
  forallb plain_text (columns df) = true ->
  forallb (forallb text_cell) (values df) = true ->
  exists body,
    csv.reader (to_csv df) = columns df :: body
    /\ map (map Str) body = values df.
Proof.
  intros Hcols Hcells. exists (csv_rows df).
  destruct (text_cells_rows (iterrows df) Hcells) as [Hp Hv].
  split; [|exact Hv].
  apply reader_to_csv. cbn [forallb]. rewrite Hcols. exact Hp.
Qed.

Lemma csv_round_trip_text_tables_witness :
  exists df body,
    DataFrame_of_columns tricky_data = Ok df
    /\ forallb plain_text (columns df) = true
    /\ forallb (forallb text_cell) (values df) = true
    /\ csv.reader (to_csv df) = columns df :: body
    /\ map (map Str) body = values df.
Proof.
  destruct (DataFrame_of_columns tricky_data) as [df|] eqn:H;
    [|vm_compute in H; discriminate].
  vm_compute in H. injection H as <-.
  destruct (csv_round_trip_text_tables (mkDF 3 tricky_data) eq_refl eq_refl)
    as (body & Hr & Hv).
  exists (mkDF 3 tricky_data), body.
  split; [reflexivity|]. split; [reflexivity|]. split; [reflexivity|].
  split; [exact Hr | exact Hv].
Defined.

(** A cell with a line feed takes two lines of the file, and a cell with a
    carriage return is read back as the end of a record: the file of a table
    of three rows has five lines, and a table of two columns is read back
    with a record of one field. *)
Lemma to_csv_lines_and_fields_fail :
  (exists df,
     DataFrame_of_columns tricky_data = Ok df
     /\ index df = 3%nat
     /\ line_feeds (to_csv df) = 5%nat)
  /\ (exists df,
        DataFrame_of_columns carriage_return_pair_data = Ok df
        /\ columns df = ["a"; "b"]
        /\ index df = 1%nat
        /\ csv.reader (to_csv df) = [["a"; "b"]; ["x"]; ["y"; "z"]])
  /\ ~ (forall df : DataFrame, line_feeds (to_csv df) = S (index df))
  /\ ~ (forall df : DataFrame,
         Forall (fun r => length r = length (columns df))
           (csv.reader (to_csv df))).
Proof.
  split; [eexists; repeat split|].
  split; [eexists; repeat split|].
  split.
  - intros H. specialize (H (mkDF 3 tricky_data)). vm_compute in H.
    discriminate.
  - intros H. specialize (H (mkDF 1 carriage_return_pair_data)).
    vm_compute in H. inversion H as [|? ? _ H1]. inversion H1 as [|? ? E _].
    discriminate.
Qed.

(** C10, as amended: for every table whose labels and cells, as written,
    hold no carriage return, the file [to_csv] writes reads back as one
    header record, the column labels in their declared order, followed by
    one record per row of the table, the cells of the row in column order;
    every record read has exactly as many fields as the table has columns,
    so nothing is written for the row index. When moreover no label or cell
    holds a line feed, every record is one line: the file has one line for
    the header and one line per row. *)
Theorem to_csv_header_then_rows (df : DataFrame) :
  forallb (forallb plain_text) (columns df :: csv_rows df) = true ->
  exists body,
    csv.reader (to_csv df) = columns df :: body
    /\ length body = index df
    /\ Forall (fun r => length r = length (columns df)) body
    /\ body = map (map csv_text) (values df)
    /\ (forallb (forallb single_line) (columns df :: csv_rows df) = true ->
        line_feeds (to_csv df) = S (index df)).
Proof.
  intros Hp. exists (csv_rows df).
  split; [exact (reader_to_csv df Hp)|].
  split; [apply csv_rows_length|].
  split; [apply csv_rows_width|]. split.
  - unfold csv_rows, values. rewrite map_map. apply map_ext.
    intros row. now rewrite map_map.
  - intros H. rewrite to_csv_records, (line_feeds_writerows _ H).
    cbn [length]. now rewrite csv_rows_length.
Qed.

Lemma to_csv_header_then_rows_witness :
  exists df body,
    DataFrame_of_columns script.cronograma_data = Ok df
    /\ forallb (forallb plain_text) (columns df :: csv_rows df) = true
    /\ forallb (forallb single_line) (columns df :: csv_rows df) = true
    /\ csv.reader (to_csv df)
       = ["Fase"; "Período"; "Modal/Operação"; "Características"; "Status"]
         :: body
    /\ length body = 5%nat
    /\ Forall (fun r => length r = 5%nat) body
    /\ line_feeds (to_csv df) = 6%nat.
Proof.
  destruct (to_csv_header_then_rows (mkDF 5 script.cronograma_data) eq_refl)
    as (body & Hread & Hlen & Hwidth & _ & Hlines).
  exists (mkDF 5 script.cronograma_data), body.
  split; [reflexivity|]. split; [reflexivity|]. split; [reflexivity|].
  split; [exact Hread|]. split; [exact Hlen|]. split; [exact Hwidth|].
  exact (Hlines eq_refl).
Defined.

(** The four files of the two scripts: each reads back as its header
    followed by its rows, one line per record. *)
Lemma script_files_read_back :
  exists df_comparacao df_cronograma,
    DataFrame_of_columns script.data = Ok df_comparacao
    /\ DataFrame_of_columns script.cronograma_data = Ok df_cronograma
    /\ script.main = Ok (to_csv df_comparacao, to_csv df_cronograma)
    /\ csv.reader (to_csv df_comparacao)
       = columns df_comparacao :: csv_rows df_comparacao
    /\ csv.reader (to_csv df_cronograma)
       = columns df_cronograma :: csv_rows df_cronograma
    /\ (length (columns df_comparacao) = 3
        /\ line_feeds (to_csv df_comparacao) = 14
        /\ length (columns df_cronograma) = 5
        /\ line_feeds (to_csv df_cronograma) = 6)%nat.
Proof.
  do 2 eexists. split; [reflexivity|]. split; [reflexivity|].
  split; [reflexivity|].
  split; [apply reader_to_csv; reflexivity|].
  split; [apply reader_to_csv; reflexivity|].
  repeat split.
Qed.

Lemma script_copy_files_read_back :
  exists df_xml_comparison df_campos,
    DataFrame_of_columns script_copy.data_xml_comparison
    = Ok df_xml_comparison
    /\ DataFrame_of_columns script_copy.campos_data = Ok df_campos
    /\ script_copy.main = Ok (to_csv df_xml_comparison, to_csv df_campos)
    /\ csv.reader (to_csv df_xml_comparison)
       = columns df_xml_comparison :: csv_rows df_xml_comparison
    /\ csv.reader (to_csv df_campos)
       = columns df_campos :: csv_rows df_campos
    /\ (length (columns df_xml_comparison) = 3
        /\ line_feeds (to_csv df_xml_comparison) = 13
        /\ length (columns df_campos) = 3
        /\ line_feeds (to_csv df_campos) = 16)%nat.
Proof.
  do 2 eexists. split; [reflexivity|]. split; [reflexivity|].
  split; [reflexivity|].
  split; [apply reader_to_csv; reflexivity|].
  split; [apply reader_to_csv; reflexivity|].
  repeat split.
Qed.

(** * Further properties *)

(** ** Dictionaries and columns *)

Lemma has_key_dict_get {V : Type} (d : dict V) (k : string) :
  has_key k d = false <-> dict_get d k = None.
Proof.
  unfold has_key. induction d as [|[k' v] d IH]; simpl; [tauto|].
  rewrite (String.eqb_sym k k').
  destruct (k' =? k)%string; simpl; [split; discriminate | exact IH].
Qed.




Lemma dict_get_of_keys {V : Type} (f : string -> V) (ks : list string)
    (k : string) :
  dict_get (map (fun k => (k, f k)) ks) k
  = if existsb (String.eqb k) ks then Some (f k) else None.
Proof.
  induction ks as [|k' ks IH]; simpl; [reflexivity|].
  rewrite (String.eqb_sym k k').
  destruct (String.eqb_spec k' k) as [->|_]; simpl; [reflexivity | exact IH].
Qed.

Lemma existsb_eqb_In (k : string) (ks : list string) :
  existsb (String.eqb k) ks = true <-> In k ks.
Proof.
  rewrite existsb_exists. split.
  - intros (x & Hx & E). apply String.eqb_eq in E. now subst.
  - intros H. exists k. split; [exact H | apply String.eqb_refl].
Qed.

(** The columns of a table built from records are the keys of the records. *)
Lemma records_column_iff (rs : list (dict scalar)) (k : string) :
  has_key k (cols (DataFrame_of_records rs)) = existsb (has_key k) rs.
Proof.
  unfold has_key, DataFrame_of_records, keys. cbn [cols].
  rewrite map_map. cbn [fst]. rewrite map_id.
  apply eq_true_iff_eq. rewrite existsb_eqb_In, existsb_exists. split.
  - intros H. apply unique_incl, in_concat in H.
    destruct H as (l & Hl & Hk). apply in_map_iff in Hl.
    destruct Hl as (r & <- & Hr). exists r. split; [exact Hr|].
    now apply existsb_eqb_In.
  - intros (r & Hr & Hk). apply In_unique, in_concat.
    exists (map fst r). split; [now apply in_map|].
    now apply existsb_eqb_In.
Qed.

Lemma well_formed_records (rs : list (dict scalar)) :
  well_formed (DataFrame_of_records rs) = true.
Proof.
  unfold well_formed, DataFrame_of_records. cbn [index cols].
  apply forallb_forall. intros kc Hkc. apply in_map_iff in Hkc.
  destruct Hkc as (k & <- & _). cbn [snd]. rewrite length_map.
  apply Nat.eqb_refl.
Qed.

Lemma well_formed_dict_set (n : nat) (d : dict Series) (c : string)
    (v : Series) :
  forallb (fun kc => (length (snd kc) =? n)%nat) d = true ->
  length v = n ->
  forallb (fun kc => (length (snd kc) =? n)%nat) (dict_set d c v) = true.
Proof.
  intros Hd Hv. induction d as [|[k s] d IH]; simpl.
  - now rewrite Hv, Nat.eqb_refl.
  - simpl in Hd. apply andb_true_iff in Hd. destruct Hd as [Hs Hd].
    destruct (k =? c)%string; simpl.
    + now rewrite Hv, Nat.eqb_refl, Hd.
    + now rewrite Hs, IH.
Qed.

Lemma well_formed_setitem (df df' : DataFrame) (c : string) (v : Series) :
  well_formed df = true -> setitem df c v = Ok df' ->
  well_formed df' = true.
Proof.
  unfold well_formed, setitem. intros Hwf.
  destruct ((index df =? 0)%nat && negb (length v =? 0)%nat).
  - intros [= <-]. cbn [index cols]. apply well_formed_dict_set;
      [|reflexivity].
    apply forallb_forall. intros kc Hkc. apply in_map_iff in Hkc.
    destruct Hkc as (kc' & <- & _). cbn [snd]. rewrite repeat_length.
    apply Nat.eqb_refl.
  - destruct (Nat.eqb_spec (length v) (index df)) as [E|]; [|discriminate].
    intros [= <-]. cbn [index cols]. now apply well_formed_dict_set.
Qed.




Lemma forallb_false_In {A : Type} (f : A -> bool) (l : list A) :
  forallb f l = false -> exists a, In a l /\ f a = false.
Proof.
  induction l as [|a l IH]; simpl; [discriminate|].
  destruct (f a) eqn:E; simpl.
  - intros H. destruct (IH H) as (b & Hb & Hf). exists b. auto.
  - intros _. exists a. auto.
Qed.

(** X8: a table is built from a dict of columns exactly when all columns
    have the same length; it then has the columns as given and that many
    rows. Columns of different lengths are refused with [ValueError], the
    only error of the constructor. *)
Theorem columns_of_one_length (d : dict Series) :
  match DataFrame_of_columns d with
  | Ok df =>
      cols df = d /\ well_formed df = true
      /\ forall c1 c2, In c1 d -> In c2 d ->
           length (snd c1) = length (snd c2)
  | Raise e =>
      e = "ValueError"
      /\ exists c1 c2,
           In c1 d /\ In c2 d /\ length (snd c1) <> length (snd c2)
  end.
Proof.
  unfold DataFrame_of_columns. destruct d as [|[k s] d]; [now repeat split|].
  match goal with
  | |- context [forallb ?f d] => destruct (forallb f d) eqn:Hall
  end.
  - rewrite forallb_forall in Hall. split; [reflexivity|].
    assert (Hlen : forall c, In c ((k, s) :: d) -> length (snd c) = length s).
    { intros c [<-|Hc]; [reflexivity|]. apply Nat.eqb_eq, Hall, Hc. }
    split.
    + unfold well_formed. cbn [index cols]. apply forallb_forall.
      intros c Hc. apply Nat.eqb_eq, Hlen, Hc.
    + intros c1 c2 H1 H2. now rewrite (Hlen c1 H1), (Hlen c2 H2).
  - split; [reflexivity|].
    apply forallb_false_In in Hall.
    destruct Hall as (c & Hc & Hne). apply Nat.eqb_neq in Hne.
    exists c, (k, s). repeat split; [now right | now left | exact Hne].
Qed.

(** ** Tables built from records *)

Ltac bind_inv H x Hx :=
  match type of H with
  | bind ?m _ = Ok _ =>
      destruct m as [x|] eqn:Hx; cbn [bind] in H; [|discriminate]
  end.

Lemma setitem_keeps_index (df df' : DataFrame) (c : string) (v : Series) :
  index df <> 0%nat -> setitem df c v = Ok df' -> index df' = index df.
Proof.
  unfold setitem. intros Hne.
  destruct (Nat.eqb_spec (index df) 0) as [E|_]; [contradiction|].
  cbn [andb].
  destruct (Nat.eqb_spec (length v) (index df)) as [E|]; [|discriminate].
  now intros [= <-].
Qed.

Lemma getitem_records_nonempty (rs : list (dict scalar)) (c : string)
    (s : Series) :
  getitem (DataFrame_of_records rs) c = Ok s ->
  index (DataFrame_of_records rs) <> 0%nat.
Proof.
  destruct rs as [|r rs]; [discriminate|]. intros _. discriminate.
Qed.

(** X10: the table of lines 18 to 31, whatever the records, has one row per
    record and every one of its columns, the converted dates and the colours
    included, has one value per row. *)
Theorem chart_table_well_formed
    (to_datetime : Series -> result Series)
    (rs : list (dict scalar)) (df : DataFrame) :
  chart_table to_datetime rs = Ok df ->
  well_formed df = true /\ index df = length rs.
Proof.
  unfold chart_table. cbv zeta. intros H.
  bind_inv H c1 H1. pose proof (getitem_records_nonempty _ _ _ H1) as Hne.
  bind_inv H d1 Hd1. bind_inv H df1 Hs1.
  bind_inv H c2 H2. bind_inv H d2 Hd2. bind_inv H df2 Hs2.
  bind_inv H c3 H3.
  pose proof (well_formed_records rs) as W0.
  pose proof (well_formed_setitem _ _ _ _ W0 Hs1) as W1.
  pose proof (well_formed_setitem _ _ _ _ W1 Hs2) as W2.
  pose proof (well_formed_setitem _ _ _ _ W2 H) as W3.
  pose proof (setitem_keeps_index _ _ _ _ Hne Hs1) as I1.
  assert (Hne1 : index df1 <> 0%nat) by (now rewrite I1).
  pose proof (setitem_keeps_index _ _ _ _ Hne1 Hs2) as I2.
  assert (Hne2 : index df2 <> 0%nat) by (now rewrite I2).
  pose proof (setitem_keeps_index _ _ _ _ Hne2 H) as I3.
  split; [exact W3|]. rewrite I3, I2, I1. reflexivity.
Qed.

Lemma chart_table_well_formed_witness :
  exists df,
    chart_table iso_to_datetime ragged_records = Raise "KeyError"
    /\ chart_table iso_to_datetime (map phase_dict fases) = Ok df
    /\ well_formed df = true /\ index df = 5%nat.
Proof.
  destruct (chart_table iso_to_datetime (map phase_dict fases))
    as [df|] eqn:H; [|vm_compute in H; discriminate].
  exists df. split; [reflexivity|]. split; [reflexivity|].
  exact (chart_table_well_formed _ _ _ H).
Defined.

(** X1: when no record has the key [inicio], and so when there is no
    record at all, the script stops at line 21 with [KeyError], before any
    date is converted and whatever the libraries would accept. *)
Theorem missing_inicio_is_KeyError
    (to_datetime : Series -> result Series)
    (Scatter_valid : go.Scatter -> bool)
    (rs : list (dict scalar)) :
  forallb (fun r => negb (has_key "inicio" r)) rs = true ->
  chart_table to_datetime rs = Raise "KeyError"
  /\ chart_script to_datetime Scatter_valid rs = Raise "KeyError".
Proof.
  intros H.
  assert (Hg : getitem (DataFrame_of_records rs) "inicio" = Raise "KeyError").
  { unfold getitem.
    assert (E : dict_get (cols (DataFrame_of_records rs)) "inicio" = None).
    { apply has_key_dict_get. rewrite records_column_iff.
      apply not_true_iff_false. intros Hex. apply existsb_exists in Hex.
      destruct Hex as (r & Hr & Hk). rewrite forallb_forall in H.
      specialize (H r Hr). rewrite Hk in H. discriminate. }
    now rewrite E. }
  assert (Ht : chart_table to_datetime rs = Raise "KeyError").
  { unfold chart_table. cbv zeta. now rewrite Hg. }
  split; [exact Ht|]. unfold chart_script. now rewrite Ht.
Qed.

Lemma missing_inicio_is_KeyError_witness :
  chart_script iso_to_datetime text_line_color [] = Raise "KeyError"
  /\ chart_script iso_to_datetime text_line_color ragged_records
     = Raise "KeyError".
Proof.
  split.
  - exact (proj2 (missing_inicio_is_KeyError iso_to_datetime text_line_color
                    [] eq_refl)).
  - exact (proj2 (missing_inicio_is_KeyError iso_to_datetime text_line_color
                    ragged_records eq_refl)).
Defined.

Lemma nth_map_default {A B : Type} (f : A -> B) (l : list A) (i : nat)
    (a : A) (b : B) :
  nth_error l i = Some a -> nth i (map f l) b = f a.
Proof.
  revert i. induction l as [|x l IH]; intros [|i]; simpl; try discriminate.
  - now intros [= ->].
  - apply IH.
Qed.

(** X11: the table built from records of any shapes has one row per record,
    in order; every row has all the columns of the table; a row holds, for
    each key of its record, the value the record gives it, and [NaN] for a
    column its record has no key for. *)
Theorem records_of_any_shape (rs : list (dict scalar)) (i : nat)
    (r : dict scalar) :
  nth_error rs i = Some r ->
  exists row,
    nth_error (iterrows (DataFrame_of_records rs)) i = Some row
    /\ keys row = columns (DataFrame_of_records rs)
    /\ (forall k v, dict_get r k = Some v -> dict_get row k = Some v)
    /\ (forall k, In k (columns (DataFrame_of_records rs)) ->
          dict_get r k = None -> dict_get row k = Some NaN).
Proof.
  intros Hr.
  assert (Hi : (i < length rs)%nat) by (apply nth_error_Some; congruence).
  set (ks := unique (concat (map keys rs))).
  exists (map (fun k => (k, record_value k r)) ks).
  assert (Hcols : columns (DataFrame_of_records rs) = ks).
  { unfold columns, DataFrame_of_records, keys. cbn [cols].
    rewrite map_map. cbn [fst]. apply map_id. }
  split; [|split; [|split]].
  - unfold iterrows, DataFrame_of_records. cbn [index cols].
    rewrite rows_from_nth by exact Hi. rewrite map_map. cbn [fst snd].
    apply f_equal. apply map_ext. intros k.
    now rewrite (nth_map_default _ _ _ _ _ Hr).
  - rewrite Hcols. unfold keys. rewrite map_map. cbn [fst]. apply map_id.
  - intros k v Hk. rewrite dict_get_of_keys.
    assert (Hin : In k ks).
    { apply In_unique, in_concat. exists (keys r). split.
      - apply in_map. eapply nth_error_In, Hr.
      - apply existsb_eqb_In.
        destruct (has_key k r) eqn:E; [exact E|].
        apply has_key_dict_get in E. congruence. }
    apply existsb_eqb_In in Hin. rewrite Hin. unfold record_value.
    now rewrite Hk.
  - intros k Hin Hk. rewrite Hcols in Hin. rewrite dict_get_of_keys.
    apply existsb_eqb_In in Hin. rewrite Hin. unfold record_value.
    now rewrite Hk.
Qed.

Lemma records_of_any_shape_witness :
  columns (DataFrame_of_records ragged_records) = ["nome"; "status"; "modal"]
  /\ exists row,
       nth_error (iterrows (DataFrame_of_records ragged_records)) 1
       = Some row
       /\ dict_get row "status" = Some (Str "Previsto")
       /\ dict_get row "nome" = Some NaN.
Proof.
  split; [reflexivity|].
  destruct (records_of_any_shape ragged_records 1
              [("status", Str "Previsto"); ("modal", Str "Modal Aéreo")]
              eq_refl) as (row & Hrow & _ & Hv & Hn).
  exists row. split; [exact Hrow|]. split.
  - apply Hv. reflexivity.
  - apply Hn; [vm_compute; tauto | reflexivity].
Defined.

(** ** The loop over the rows *)

Section LoopFacts.

Variable to_datetime : Series -> result Series.
Variable Scatter_valid : go.Scatter -> bool.

Lemma Scatter_inv (x y : list scalar) (mode : string) (lc : scalar)
    (lw : Z) (mc : scalar) (ms : Z) (name legendgroup : scalar)
    (showlegend : bool) (hover : string) (t : go.Scatter) :
  Scatter Scatter_valid x y mode lc lw mc ms name legendgroup showlegend
    hover = Ok t ->
  Scatter_valid t = true /\ go.x t = x /\ go.y t = y.
Proof.
  unfold Scatter. intros H. bind_inv H n Hn. bind_inv H g Hg.
  cbv zeta in H.
  match type of H with
  | (if Scatter_valid ?u then _ else _) = _ =>
      destruct (Scatter_valid u) eqn:Hv; [|discriminate]
  end.
  injection H as <-. auto.
Qed.

(** One turn of the loop adds one trace, which the library accepted. *)
Lemma add_row_inv (fig fig' : go.Figure) (row : dict scalar) :
  add_row Scatter_valid fig row = Ok fig' ->
  exists t, fig' = go.add_trace fig t /\ Scatter_valid t = true.
Proof.
  unfold add_row. intros H.
  bind_inv H a Ha. bind_inv H b Hb. bind_inv H n Hn. bind_inv H c Hc.
  bind_inv H s Hs. bind_inv H m Hm. bind_inv H q Hq. bind_inv H t Ht.
  injection H as <-. exists t. split; [reflexivity|].
  apply Scatter_inv in Ht. tauto.
Qed.

Lemma add_rows_appends (rows : list (dict scalar)) :
  forall fig fig',
    add_rows Scatter_valid fig rows = Ok fig' ->
    exists new,
      go.data fig' = (go.data fig ++ new)%list
      /\ length new = length rows
      /\ forallb Scatter_valid new = true
      /\ go.layout fig' = go.layout fig.
Proof.
  induction rows as [|row rows IH]; intros fig fig' H; cbn [add_rows] in H.
  - injection H as <-. exists []. rewrite app_nil_r. auto.
  - bind_inv H fig1 H1. apply add_row_inv in H1.
    destruct H1 as (t & -> & Hv). apply IH in H.
    destruct H as (new & Hd & Hl & Hf & Hy).
    exists (t :: new). cbn [go.add_trace go.data go.layout] in Hd, Hy.
    rewrite Hd, <- app_assoc. cbn [app length forallb].
    rewrite Hl, Hv, Hf. auto.
Qed.

(** X7: the loop of lines 36 to 51, on any rows and any figure, keeps the
    traces the figure had, in place, adds exactly one trace per row after
    them, each accepted by the library, and leaves the layout as it was. *)
Theorem loop_adds_one_trace_per_row (rows : list (dict scalar))
    (fig fig' : go.Figure) :
  add_rows Scatter_valid fig rows = Ok fig' ->
  firstn (length (go.data fig)) (go.data fig') = go.data fig
  /\ length (go.data fig') = (length (go.data fig) + length rows)%nat
  /\ forallb Scatter_valid (skipn (length (go.data fig)) (go.data fig'))
     = true
  /\ go.layout fig' = go.layout fig.
Proof.
  intros H. apply add_rows_appends in H.
  destruct H as (new & Hd & Hl & Hf & Hy). rewrite Hd.
  split; [|split; [|split]].
  - rewrite firstn_app, Nat.sub_diag, firstn_all. cbn [firstn].
    apply app_nil_r.
  - rewrite length_app. lia.
  - rewrite skipn_app, Nat.sub_diag, skipn_all. exact Hf.
  - exact Hy.
Qed.

Lemma chart_table_index (rs : list (dict scalar)) (df : DataFrame) :
  chart_table to_datetime rs = Ok df -> index df = length rs.
Proof.
  unfold chart_table. cbv zeta. intros H.
  bind_inv H c1 H1. pose proof (getitem_records_nonempty _ _ _ H1) as Hne.
  bind_inv H d1 Hd1. bind_inv H df1 Hs1.
  bind_inv H c2 H2. bind_inv H d2 Hd2. bind_inv H df2 Hs2.
  bind_inv H c3 H3.
  pose proof (setitem_keeps_index _ _ _ _ Hne Hs1) as I1.
  assert (Hne1 : index df1 <> 0%nat) by (now rewrite I1).
  pose proof (setitem_keeps_index _ _ _ _ Hne1 Hs2) as I2.
  assert (Hne2 : index df2 <> 0%nat) by (now rewrite I2).
  rewrite (setitem_keeps_index _ _ _ _ Hne2 H), I2, I1. reflexivity.
Qed.

(** X3: whatever the records, a figure the script produces has exactly one
    trace per record, every trace is one the plotting library accepted, and
    the layout is the fixed layout of lines 54 to 76 around the array of
    the [nome] column. *)
Theorem figure_has_accepted_trace_per_record
    (rs : list (dict scalar)) (fig : go.Figure) :
  chart_script to_datetime Scatter_valid rs = Ok fig ->
  length (go.data fig) = length rs
  /\ forallb Scatter_valid (go.data fig) = true
  /\ exists df nomes,
       chart_table to_datetime rs = Ok df
       /\ getitem df "nome" = Ok nomes
       /\ go.layout fig = chart_layout nomes.
Proof.
  unfold chart_script. intros H. bind_inv H df Hdf.
  bind_inv H fig1 Hloop. bind_inv H nomes Hn. injection H as <-.
  apply add_rows_appends in Hloop.
  destruct Hloop as (new & Hd & Hl & Hf & Hy).
  cbn [go.new_Figure go.data app] in Hd.
  cbn [go.update_xaxes_range update_layout go.data]. rewrite Hd.
  split; [|split].
  - rewrite Hl. unfold iterrows. rewrite rows_from_length.
    exact (chart_table_index _ _ Hdf).
  - exact Hf.
  - exists df, nomes. split; [reflexivity|]. split; [exact Hn|].
    reflexivity.
Qed.

(** The loop stops with [ValueError] at the first trace the library
    refuses. *)
Lemma add_rows_rejects (zs : list dated) :
  forall fig,
    forallb Scatter_valid (phase_traces (map go.name (go.data fig)) zs)
    = false ->
    add_rows Scatter_valid fig (map phase_row zs) = Raise "ValueError".
Proof.
  induction zs as [|z zs IH]; intros fig; cbn [map add_rows phase_traces];
    [discriminate|].
  cbn [forallb]. rewrite add_row_phase. cbv zeta.
  destruct (Scatter_valid _); cbn [andb bind]; [|reflexivity].
  intros H. apply IH. unfold go.add_trace. cbn [go.data].
  rewrite map_app. exact H.
Qed.

(** The table of lines 18 to 31 for phases whose dates convert. *)
Lemma chart_table_ok (z : dated) (zs : list dated) :
  to_datetime (map (fun z => inicio_cell (phase_of z)) (z :: zs))
  = Ok (map start_of (z :: zs)) ->
  to_datetime (map (fun z => fim_cell (phase_of z)) (z :: zs))
  = Ok (map end_of (z :: zs)) ->
  chart_table to_datetime (map phase_dict (map phase_of (z :: zs)))
  = Ok (phases_frame (z :: zs)).
Proof.
  intros H1 H2. unfold chart_table.
  change (map phase_of (z :: zs)) with (phase_of z :: map phase_of zs).
  rewrite phase_records_frame.
  change (phase_of z :: map phase_of zs) with (map phase_of (z :: zs)).
  rewrite !map_map.
  assert (L : forall (A : Type) (f : dated -> A),
            length (map f (z :: zs)) = S (length (map phase_of zs))).
  { intros A f. cbn [map length]. now rewrite !length_map. }
  remember (map (fun z => nome_cell (phase_of z)) (z :: zs)) as c1.
  remember (map (fun z => periodo_cell (phase_of z)) (z :: zs)) as c2.
  remember (map (fun z => modal_cell (phase_of z)) (z :: zs)) as c3.
  remember (map (fun z => status_cell (phase_of z)) (z :: zs)) as c4 eqn:E4.
  remember (map (fun z => inicio_cell (phase_of z)) (z :: zs)) as c5.
  remember (map (fun z => fim_cell (phase_of z)) (z :: zs)) as c6.
  remember (map start_of (z :: zs)) as d1 eqn:E1.
  remember (map end_of (z :: zs)) as d2 eqn:E2.
  assert (L1 : length d1 = S (length (map phase_of zs))) by (subst; apply L).
  assert (L2 : length d2 = S (length (map phase_of zs))) by (subst; apply L).
  assert (L4 : length c4 = S (length (map phase_of zs))) by (subst; apply L).
  remember (length (map phase_of zs)) as n eqn:En.
  cbn. rewrite H1. cbn. rewrite L1, Nat.eqb_refl. cbn.
  rewrite H2. cbn. rewrite L2, Nat.eqb_refl. cbn.
  unfold Series_map. rewrite length_map, L4, Nat.eqb_refl.
  subst. unfold phases_frame. cbn [length]. rewrite !length_map, !map_map.
  reflexivity.
Qed.

(** X4: when the dates of the phases convert but the plotting library
    refuses the trace of one of them, the script stops with [ValueError];
    no figure with the other traces is produced. *)
Theorem rejected_trace_is_ValueError (z : dated) (zs : list dated) :
  to_datetime (map (fun z => inicio_cell (phase_of z)) (z :: zs))
  = Ok (map start_of (z :: zs)) ->
  to_datetime (map (fun z => fim_cell (phase_of z)) (z :: zs))
  = Ok (map end_of (z :: zs)) ->
  forallb Scatter_valid (phase_traces [] (z :: zs)) = false ->
  chart_script to_datetime Scatter_valid
    (map phase_dict (map phase_of (z :: zs)))
  = Raise "ValueError".
Proof.
  intros H1 H2 Hv. unfold chart_script.
  rewrite (chart_table_ok z zs H1 H2). cbn [bind].
  rewrite phases_frame_rows, add_rows_rejects; [reflexivity | exact Hv].
Qed.

(** X2: an exception of [pd.to_datetime], on the start dates or, when these
    convert, on the end dates, leaves the script as it is: no trace is
    built and the exception is the script's. *)
Theorem date_error_propagates (p : PhaseRecord) (ps : list PhaseRecord)
    (e : string) :
  to_datetime (map inicio_cell (p :: ps)) = Raise e
  \/ (exists d1,
        to_datetime (map inicio_cell (p :: ps)) = Ok d1
        /\ length d1 = S (length ps)
        /\ to_datetime (map fim_cell (p :: ps)) = Raise e) ->
  chart_table to_datetime (map phase_dict (p :: ps)) = Raise e
  /\ chart_script to_datetime Scatter_valid (map phase_dict (p :: ps))
     = Raise e.
Proof.
  intros H.
  assert (Ht : chart_table to_datetime (map phase_dict (p :: ps)) = Raise e).
  { unfold chart_table. rewrite phase_records_frame.
    remember (map nome_cell (p :: ps)) as c1.
    remember (map periodo_cell (p :: ps)) as c2.
    remember (map modal_cell (p :: ps)) as c3.
    remember (map status_cell (p :: ps)) as c4.
    remember (map inicio_cell (p :: ps)) as c5.
    remember (map fim_cell (p :: ps)) as c6.
    remember (length ps) as n.
    cbn. destruct H as [H1 | (d1 & H1 & L1 & H2)]; rewrite H1; cbn;
      [reflexivity|].
    rewrite L1, Nat.eqb_refl. cbn. rewrite H2. reflexivity. }
  split; [exact Ht|]. unfold chart_script. now rewrite Ht.
Qed.

End LoopFacts.

Lemma loop_adds_one_trace_per_row_witness :
  exists fig,
    add_rows text_line_color go.new_Figure
      (map phase_row
         [(reversed_phase, Timestamp (mkDate 2025 3 31),
           Timestamp (mkDate 2025 1 1))]) = Ok fig
    /\ length (go.data fig) = 1%nat
    /\ go.layout fig = go.empty_layout.
Proof.
  destruct (add_rows text_line_color go.new_Figure
              (map phase_row
                 [(reversed_phase, Timestamp (mkDate 2025 3 31),
                   Timestamp (mkDate 2025 1 1))])) as [fig|] eqn:H;
    [|vm_compute in H; discriminate].
  exists fig. split; [reflexivity|].
  destruct (loop_adds_one_trace_per_row _ _ _ _ H) as (_ & Hl & _ & Hy).
  split; [exact Hl | exact Hy].
Defined.

Lemma figure_has_accepted_trace_per_record_witness :
  exists fig,
    run_chart fases = Ok fig
    /\ length (go.data fig) = 5%nat
    /\ forallb text_line_color (go.data fig) = true.
Proof.
  destruct (run_chart fases) as [fig|] eqn:H; [|vm_compute in H; discriminate].
  exists fig. split; [reflexivity|].
  destruct (figure_has_accepted_trace_per_record _ _ _ _ H) as (Hl & Hv & _).
  rewrite length_map in Hl. split; [exact Hl | exact Hv].
Defined.

Lemma rejected_trace_is_ValueError_witness :
  map_value status_colors (Str (status cancelled_phase)) = NaN
  /\ run_chart [cancelled_phase] = Raise "ValueError".
Proof.
  split; [reflexivity|].
  exact (rejected_trace_is_ValueError iso_to_datetime text_line_color
           (cancelled_phase, Timestamp (mkDate 2026 1 1),
            Timestamp (mkDate 2026 3 31)) [] eq_refl eq_refl eq_refl).
Defined.

Lemma date_error_propagates_witness :
  parse_iso (inicio bad_date_phase) = None
  /\ run_chart [bad_date_phase] = Raise "ValueError".
Proof.
  split; [reflexivity|].
  exact (proj2 (date_error_propagates iso_to_datetime text_line_color
                  bad_date_phase [] "ValueError" (or_introl eq_refl))).
Defined.

(** ** The traces and their legend groups *)

(** X12: for a list of phases the table of lines 18 to 31 has the six
    columns of the records in their order and [color] last; the four text
    columns hold the texts of the phases, the two date columns what
    [pd.to_datetime] returned for them, in place, and [color] the colours
    looked up for the statuses, row by row. *)
Theorem chart_table_columns
    (to_datetime : Series -> result Series)
    (ps : list PhaseRecord) (df : DataFrame) :
  chart_table to_datetime (map phase_dict ps) = Ok df ->
  columns df = (phase_keys ++ ["color"])%list
  /\ getitem df "nome" = Ok (map nome_cell ps)
  /\ getitem df "periodo" = Ok (map periodo_cell ps)
  /\ getitem df "modal" = Ok (map modal_cell ps)
  /\ getitem df "status" = Ok (map status_cell ps)
  /\ getitem df "inicio" = to_datetime (map inicio_cell ps)
  /\ getitem df "fim" = to_datetime (map fim_cell ps)
  /\ getitem df "color"
     = Ok (Series_map status_colors (map status_cell ps)).
Proof.
  intros H. apply chart_table_inv in H.
  destruct H as (zs & Hps & _ & H1 & H2 & ->).
  rewrite H1, H2, <- Hps. unfold Series_map. rewrite !map_map.
  repeat split.
Qed.

Lemma chart_table_columns_witness :
  exists df,
    chart_table iso_to_datetime (map phase_dict two_phases) = Ok df
    /\ columns df
       = ["nome"; "periodo"; "modal"; "status"; "inicio"; "fim"; "color"]
    /\ getitem df "inicio"
       = Ok [Timestamp (mkDate 2024 10 1); Timestamp (mkDate 2025 1 1)].
Proof.
  destruct (chart_table iso_to_datetime (map phase_dict two_phases))
    as [df|] eqn:H; [|vm_compute in H; discriminate].
  exists df. split; [reflexivity|].
  destruct (chart_table_columns _ _ _ H) as (Hc & _ & _ & _ & _ & Hi & _).
  split; [exact Hc | exact Hi].
Defined.

(** X5: in a figure the script produces, the trace of a phase is a segment
    of two points, from the converted start date to the converted end date
    of that phase, both on the row of the phase's name; it is drawn as
    lines with markers, line width 8 and marker size 10, with one colour
    for line and marker, and its name and its legend group are the status
    of the phase. *)
Theorem trace_is_segment_of_phase
    (to_datetime : Series -> result Series)
    (Scatter_valid : go.Scatter -> bool)
    (ps : list PhaseRecord) (fig : go.Figure) :
  chart_script to_datetime Scatter_valid (map phase_dict ps) = Ok fig ->
  exists starts ends,
    to_datetime (map inicio_cell ps) = Ok starts
    /\ to_datetime (map fim_cell ps) = Ok ends
    /\ forall i p t,
         nth_error ps i = Some p -> nth_error (go.data fig) i = Some t ->
         exists a b,
           nth_error starts i = Some a /\ nth_error ends i = Some b
           /\ go.x t = [a; b]
           /\ go.y t = [Str (nome p); Str (nome p)]
           /\ go.mode t = "lines+markers"
           /\ go.line_width t = 8%Z /\ go.marker_size t = 10%Z
           /\ go.line_color t = go.marker_color t
           /\ go.name t = status p /\ go.legendgroup t = status p.
Proof.
  intros H. apply chart_script_inv in H.
  destruct H as (zs & Hps & _ & H1 & H2 & Hd & _).
  exists (map start_of zs), (map end_of zs).
  split; [exact H1|]. split; [exact H2|].
  intros i p t Hp Ht. rewrite <- Hps in Hp.
  apply nth_error_dated in Hp. destruct Hp as (z & Hz & <-).
  rewrite Hd, phase_traces_nth, Hz in Ht. injection Ht as <-.
  exists (start_of z), (end_of z). rewrite !nth_error_map, Hz.
  repeat split.
Qed.

Lemma trace_is_segment_of_phase_witness :
  exists fig t,
    run_chart fases = Ok fig
    /\ nth_error (go.data fig) 4 = Some t
    /\ go.x t
       = [Timestamp (mkDate 2025 10 1); Timestamp (mkDate 2025 12 31)]
    /\ go.y t = [Str "Fase 3B"; Str "Fase 3B"]
    /\ go.name t = "Previsto".
Proof.
  destruct (run_chart fases) as [fig|] eqn:H; [|vm_compute in H; discriminate].
  destruct (nth_error (go.data fig) 4) as [t|] eqn:Ht;
    [|vm_compute in H; injection H as <-; discriminate].
  exists fig, t. split; [reflexivity|]. split; [exact Ht|].
  destruct (trace_is_segment_of_phase _ _ _ _ H)
    as (starts & ends & H1 & H2 & Hall).
  destruct (Hall 4%nat
              (mkPhase "Fase 3B" "Out-Dez 2025" "Zona Franca Manaus"
                 "Previsto" "2025-10-01" "2025-12-31") t eq_refl Ht)
    as (a & b & Ha & Hb & Hx & Hy & _ & _ & _ & _ & Hn & _).
  vm_compute in H1. injection H1 as <-. vm_compute in H2.
  injection H2 as <-. injection Ha as <-. injection Hb as <-.
  split; [exact Hx|]. split; [exact Hy | exact Hn].
Defined.

Lemma existsb_firstn_nth (s : string) (l : list string) :
  forall i,
    existsb (String.eqb s) (firstn i l) = true ->
    exists k, (k < i)%nat /\ nth_error l k = Some s.
Proof.
  induction l as [|a l IH]; intros [|i]; simpl; try discriminate.
  destruct (String.eqb_spec s a) as [->|_]; simpl.
  - intros _. exists 0%nat. split; [lia | reflexivity].
  - intros H. destruct (IH i H) as (k & Hk & Hn).
    exists (S k). split; [lia | exact Hn].
Qed.

(** Every text of a list has a first occurrence. *)
Lemma first_occurrence (l : list string) (s : string) (i : nat) :
  nth_error l i = Some s ->
  exists j,
    (j <= i)%nat /\ nth_error l j = Some s
    /\ existsb (String.eqb s) (firstn j l) = false.
Proof.
  induction i as [i IH] using lt_wf_ind. intros Hi.
  destruct (existsb (String.eqb s) (firstn i l)) eqn:E.
  - apply existsb_firstn_nth in E. destruct E as (k & Hk & Hn).
    destruct (IH k Hk Hn) as (j & Hj & Hjn & Hje).
    exists j. split; [lia | auto].
  - exists i. auto.
Qed.

(** X6: in a figure the script produces every trace has, at its place or
    before it, a trace of its legend group that is shown in the legend, and
    that trace has the same name and the same colours; a trace hidden from
    the legend is so represented by the entry of its group. *)
Theorem every_trace_has_its_legend_entry
    (to_datetime : Series -> result Series)
    (Scatter_valid : go.Scatter -> bool)
    (ps : list PhaseRecord) (fig : go.Figure) (i : nat) (t : go.Scatter) :
  chart_script to_datetime Scatter_valid (map phase_dict ps) = Ok fig ->
  nth_error (go.data fig) i = Some t ->
  exists j t',
    (j <= i)%nat /\ nth_error (go.data fig) j = Some t'
    /\ go.showlegend t' = true
    /\ go.legendgroup t' = go.legendgroup t
    /\ go.name t' = go.name t
    /\ go.line_color t' = go.line_color t
    /\ go.marker_color t' = go.marker_color t.
Proof.
  intros H Ht. apply chart_script_inv in H.
  destruct H as (zs & _ & _ & _ & _ & Hd & _).
  rewrite Hd, phase_traces_nth in Ht.
  destruct (nth_error zs i) as [z|] eqn:Hz; [|discriminate].
  injection Ht as <-.
  assert (Hs : nth_error (map status_of zs) i = Some (status_of z))
    by (now rewrite nth_error_map, Hz).
  destruct (first_occurrence _ _ _ Hs) as (j & Hj & Hjn & Hje).
  rewrite nth_error_map in Hjn.
  destruct (nth_error zs j) as [z'|] eqn:Hz'; [|discriminate].
  injection Hjn as Hst. unfold status_of in Hst.
  exists j, (phase_trace (firstn j (map status_of zs)) z').
  split; [exact Hj|]. split.
  - rewrite Hd, phase_traces_nth, Hz'. reflexivity.
  - cbn [phase_trace go.showlegend go.legendgroup go.name go.line_color
          go.marker_color].
    unfold color_cell, status_cell, not_in. rewrite Hst.
    change (eq_str (Str (status (phase_of z))))
      with (String.eqb (status_of z)).
    rewrite Hje. repeat split.
Qed.

Lemma every_trace_has_its_legend_entry_witness :
  exists fig t t',
    run_chart fases = Ok fig
    /\ nth_error (go.data fig) 3 = Some t
    /\ go.showlegend t = false
    /\ nth_error (go.data fig) 2 = Some t'
    /\ go.showlegend t' = true
    /\ go.legendgroup t' = go.legendgroup t.
Proof.
  destruct (run_chart fases) as [fig|] eqn:H; [|vm_compute in H; discriminate].
  destruct (nth_error (go.data fig) 3) as [t|] eqn:Ht;
    [|vm_compute in H; injection H as <-; discriminate].
  destruct (every_trace_has_its_legend_entry _ _ _ _ _ _ H Ht)
    as (j & t' & _ & _ & _ & _ & _).
  vm_compute in H. injection H as <-.
  vm_compute in Ht. injection Ht as <-.
  do 3 eexists. split; [reflexivity|]. split; [reflexivity|].
  split; [reflexivity|]. split; [reflexivity|]. split; reflexivity.
Defined.

(** ** More on exported files *)

(** X14: two tables whose labels and cells are texts without carriage
    return and that are written as the same file have the same columns and
    the same cells: the file tells such tables apart. *)
Theorem to_csv_injective_on_text_tables (df1 df2 : DataFrame) :
  forallb plain_text (columns df1) = true ->
  forallb (forallb text_cell) (values df1) = true ->
  forallb plain_text (columns df2) = true ->
  forallb (forallb text_cell) (values df2) = true ->
  to_csv df1 = to_csv df2 ->
  columns df1 = columns df2 /\ values df1 = values df2.
Proof.
  intros Hc1 Hv1 Hc2 Hv2 E.
  destruct (text_cells_rows (iterrows df1) Hv1) as [P1 V1].
  destruct (text_cells_rows (iterrows df2) Hv2) as [P2 V2].
  assert (R1 : csv.reader (to_csv df1) = columns df1 :: csv_rows df1).
  { apply reader_to_csv. cbn [forallb]. now rewrite Hc1. }
  assert (R2 : csv.reader (to_csv df2) = columns df2 :: csv_rows df2).
  { apply reader_to_csv. cbn [forallb]. now rewrite Hc2. }
  rewrite E, R2 in R1. injection R1 as Hcols Hrows.
  split; [now symmetry|].
  unfold values. rewrite <- V1, <- V2. fold (csv_rows df1).
  fold (csv_rows df2). now rewrite Hrows.
Qed.

Lemma to_csv_injective_on_text_tables_witness :
  to_csv (mkDF 3 tricky_data) = to_csv (mkDF 3 tricky_data)
  /\ to_csv (mkDF 1 empty_text_data) = to_csv (mkDF 1 missing_value_data)
  /\ values (mkDF 1 empty_text_data) <> values (mkDF 1 missing_value_data)
  /\ values (mkDF 3 tricky_data) = values (mkDF 3 tricky_data).
Proof.
  split; [reflexivity|]. split; [reflexivity|].
  split; [vm_compute; discriminate|].
  exact (proj2 (to_csv_injective_on_text_tables (mkDF 3 tricky_data)
                  (mkDF 3 tricky_data) eq_refl eq_refl eq_refl eq_refl
                  eq_refl)).
Defined.

Lemma join_fields_bare (fs : list string) :
  forallb bare_field fs = true ->
  csv.join_fields fs = String.concat "," fs.
Proof.
  induction fs as [|f fs IH]; [reflexivity|].
  cbn [forallb]. intros H. apply andb_true_iff in H. destruct H as [Hf Hfs].
  unfold bare_field in Hf. apply negb_true_iff in Hf.
  destruct fs as [|g fs].
  - simpl. unfold csv.write_field. now rewrite Hf.
  - change (csv.join_fields (f :: g :: fs))
      with (csv.write_field f
            ++ String csv.delimiter (csv.join_fields (g :: fs))).
    rewrite (IH Hfs). unfold csv.write_field. rewrite Hf. reflexivity.
Qed.

Lemma writerows_bare (rows : list (list string)) :
  forallb (fun r => (2 <=? length r)%nat && forallb bare_field r) rows
  = true ->
  csv.writerows rows = plain_lines rows.
Proof.
  induction rows as [|r rows IH]; [reflexivity|].
  cbn [forallb csv.writerows plain_lines]. intros H.
  apply andb_true_iff in H. destruct H as [Hr Hrows].
  apply andb_true_iff in Hr. destruct Hr as [Hlen Hbare].
  rewrite (IH Hrows). unfold csv.writerow.
  rewrite (join_fields_bare r Hbare).
  destruct r as [|f [|g r]]; try discriminate.
  assert (E : (String.concat "," (f :: g :: r) =? "")%string = false).
  { apply String.eqb_neq. cbn [String.concat]. destruct f; discriminate. }
  rewrite E, andb_false_r. now rewrite append_assoc.
Qed.

(** X15: quoting is minimal. A table of two columns or more in which no
    label and no cell holds a comma, a quote or a line feed is written with
    no quote added: the file is the labels joined by commas, then every row
    joined by commas, one line each. *)
Theorem to_csv_adds_no_quoting (df : DataFrame) :
  (2 <=? length (columns df))%nat = true ->
  forallb (forallb bare_field) (columns df :: csv_rows df) = true ->
  to_csv df = plain_lines (columns df :: csv_rows df).
Proof.
  intros Hn Hb. rewrite to_csv_records. apply writerows_bare.
  cbn [forallb] in Hb |- *. apply andb_true_iff in Hb.
  destruct Hb as [Hc Hr]. rewrite Hn, Hc. cbn [andb].
  apply forallb_forall. intros r Hin.
  rewrite forallb_forall in Hr. rewrite (Hr r Hin), andb_true_r.
  pose proof (csv_rows_width df) as W. rewrite Forall_forall in W.
  now rewrite (W r Hin).
Qed.

Lemma to_csv_adds_no_quoting_witness :
  to_csv (mkDF 1 empty_text_data)
  = "a,b" ++ csv.lineterminator ++ ",x" ++ csv.lineterminator.
Proof.
  rewrite (to_csv_adds_no_quoting (mkDF 1 empty_text_data) eq_refl eq_refl).
  reflexivity.
Defined.

(** X13: in a table built from a dict of columns the rows are as many as
    the values of each column, and row [i] holds, under the labels in the
    order of the dict, the [i]-th value of every column; no cell is filled
    in. *)
Theorem rows_of_columns (d : dict Series) (df : DataFrame) (i : nat) :
  DataFrame_of_columns d = Ok df -> (i < index df)%nat ->
  length (iterrows df) = index df
  /\ exists row,
       nth_error (iterrows df) i = Some row
       /\ keys row = keys d
       /\ forall k s, In (k, s) d ->
            exists v, nth_error s i = Some v /\ In (k, v) row.
Proof.
  intros H Hi.
  destruct (DataFrame_of_columns_shape d df H) as (_ & Hc & Hlen & Hrows).
  split; [exact Hrows|].
  exists (map (fun kc => (fst kc, nth i (snd kc) NaN)) d).
  split; [|split].
  - unfold iterrows. rewrite Hc. apply rows_from_nth, Hi.
  - unfold keys. rewrite map_map. reflexivity.
  - intros k s Hin. rewrite Forall_forall in Hlen.
    pose proof (Hlen (k, s) Hin) as Hs. cbn [snd] in Hs.
    exists (nth i s NaN). split.
    + apply nth_error_nth'. lia.
    + apply in_map_iff. exists (k, s). auto.
Qed.

Lemma rows_of_columns_witness :
  exists df row,
    DataFrame_of_columns script.cronograma_data = Ok df
    /\ index df = 5%nat
    /\ nth_error (iterrows df) 4 = Some row
    /\ In ("Status", Str "PREVISTO") row.
Proof.
  exists (mkDF 5 script.cronograma_data).
  destruct (rows_of_columns script.cronograma_data
              (mkDF 5 script.cronograma_data) 4 eq_refl)
    as (_ & row & Hrow & _ & Hcells); [vm_compute; lia|].
  exists row. split; [reflexivity|]. split; [reflexivity|].
  split; [exact Hrow|].
  destruct (Hcells "Status"
              [Str "IMPLEMENTADO"; Str "IMPLEMENTADO"; Str "EM ANDAMENTO";
               Str "EM ANDAMENTO"; Str "PREVISTO"])
    as (v & Hv & Hin); [vm_compute; tauto|].
  injection Hv as <-. exact Hin.
Defined.
